(** * The retry/backoff request wrapper of the alt-text generator

    A shallow embedding of [generateAltText] (src/App.jsx, lines 77-160):
    the request envelope, the bounded retry loop around [fetch], the
    extraction of the generated text from the response, and the three
    React state setters the function drives.

    JavaScript built-ins are modelled by what they do to an explicit store:
    [fetch] asks an endpoint oracle and appends to a chronological log,
    [setTimeout] appends the waited duration to the same log, [throw] and
    [try]/[catch]/[finally] are completions of a small state-and-error
    monad.  The function's [let] variables live in the store, so that an
    assignment made before a [throw] is still visible in the handler, as in
    the source. *)

From Stdlib Require Import ZArith List String Ascii Bool Lia SpecFloat DecimalString.
Import ListNotations.

Local Open Scope Z_scope.

(** ** JavaScript values *)

(** The values [response.json()] can resolve to, and [undefined].  Numbers
    are IEEE 754 values, in the standard library's [spec_float]. *)
#[warnings="-register-all"]
Inductive jsval : Type :=
| JUndefined
| JNull
| JBool (b : bool)
| JNum (x : spec_float)
| JStr (s : string)
| JArr (elems : list jsval)
| JObj (props : list (string * jsval)).

(** ToBoolean, the test behind [if (generatedText)]. *)
Definition truthy (v : jsval) : bool :=
  match v with
  | JUndefined | JNull => false
  | JBool b => b
  | JNum (S754_zero _) | JNum S754_nan => false
  | JNum _ => true
  | JStr s => negb (String.eqb s EmptyString)
  | JArr _ | JObj _ => true
  end.

Fixpoint own_prop (k : string) (props : list (string * jsval)) : jsval :=
  match props with
  | [] => JUndefined
  | (k', v) :: rest => if String.eqb k k' then v else own_prop k rest
  end.

(** [v?.name] for the four names the source reads ([candidates], [content],
    [parts], [text]); none of them is an inherited property of arrays,
    strings, numbers or booleans. *)
Definition opt_member (v : jsval) (name : string) : jsval :=
  match v with
  | JObj props => own_prop name props
  | _ => JUndefined
  end.

(** [v?.[0]]: an element of an array, the property "0" of an object, the
    first character of a string. *)
Definition opt_index0 (v : jsval) : jsval :=
  match v with
  | JArr elems => nth 0 elems JUndefined
  | JObj props => own_prop "0" props
  | JStr (String c _) => JStr (String c EmptyString)
  | _ => JUndefined
  end.

(** ** Errors, promises, responses *)

Inductive JsError : Type :=
| Error (message : string)        (* new Error(message) *)
| TypeError (message : string)    (* what fetch rejects with *)
| SyntaxError (message : string). (* what response.json() rejects with *)

(** How [response.json()] settles: with the parsed body, or rejected with a
    SyntaxError when the body is not JSON. *)
Inductive JsonResult : Type :=
| Parsed (v : jsval)
| Malformed (why : string).

Record Response : Type := mkResponse {
  status : Z;
  statusText : string;
  json : JsonResult
}.

(** How [fetch] settles: with a response, whatever its status, or rejected
    with a TypeError when the request could not be carried out. *)
Inductive FetchResult : Type :=
| Resolves (r : Response)
| Rejects (reason : string).

(** [response.ok]: the status is in the range 200-299. *)
Definition ok (r : Response) : bool :=
  (200 <=? status r) && (status r <=? 299).

(** ** The request *)

(** The text [JSON.stringify] yields for a value; the serialisation itself
    is the runtime's and is kept symbolic. *)
Inductive JsonText : Type :=
| JSON_stringify (v : jsval).

Record RequestInit : Type := mkRequestInit {
  method : string;
  headers : list (string * string);
  body : JsonText
}.

Inductive Event : Type :=
| EvFetch (url : string) (init : RequestInit)
| EvSleep (ms : Z).

(** The remote side: what the n-th network call (counted from 0 over the
    life of the page) of a given request settles to. *)
Definition Endpoint : Type := nat -> string -> RequestInit -> FetchResult.

(** ** The store *)

Record Store : Type := mkStore {
  (* let-variables of generateAltText *)
  response : option Response;
  delay : Z;
  retries : Z;
  (* the environment *)
  calls : nat;
  log : list Event;
  console : list JsError;
  (* React state *)
  isLoading : bool;
  message : string;
  altText : jsval
}.

Definition with_response (x : option Response) (s : Store) : Store :=
  mkStore x (delay s) (retries s) (calls s) (log s) (console s)
          (isLoading s) (message s) (altText s).
Definition with_delay (x : Z) (s : Store) : Store :=
  mkStore (response s) x (retries s) (calls s) (log s) (console s)
          (isLoading s) (message s) (altText s).
Definition with_retries (x : Z) (s : Store) : Store :=
  mkStore (response s) (delay s) x (calls s) (log s) (console s)
          (isLoading s) (message s) (altText s).
Definition with_calls (x : nat) (s : Store) : Store :=
  mkStore (response s) (delay s) (retries s) x (log s) (console s)
          (isLoading s) (message s) (altText s).
Definition with_log (x : list Event) (s : Store) : Store :=
  mkStore (response s) (delay s) (retries s) (calls s) x (console s)
          (isLoading s) (message s) (altText s).
Definition with_console (x : list JsError) (s : Store) : Store :=
  mkStore (response s) (delay s) (retries s) (calls s) (log s) x
          (isLoading s) (message s) (altText s).
Definition with_isLoading (x : bool) (s : Store) : Store :=
  mkStore (response s) (delay s) (retries s) (calls s) (log s) (console s)
          x (message s) (altText s).
Definition with_message (x : string) (s : Store) : Store :=
  mkStore (response s) (delay s) (retries s) (calls s) (log s) (console s)
          (isLoading s) x (altText s).
Definition with_altText (x : jsval) (s : Store) : Store :=
  mkStore (response s) (delay s) (retries s) (calls s) (log s) (console s)
          (isLoading s) (message s) x.

(** ** Completions and the monad *)

Inductive Completion (A : Type) : Type :=
| Normal (a : A)
| Throw (e : JsError)
| OutOfFuel.
Arguments Normal {A} a.
Arguments Throw {A} e.
Arguments OutOfFuel {A}.

Definition M (A : Type) : Type := Store -> Completion A * Store.

Definition ret {A} (a : A) : M A := fun s => (Normal a, s).

Definition bind {A B} (m : M A) (k : A -> M B) : M B :=
  fun s =>
    match m s with
    | (Normal a, s') => k a s'
    | (Throw e, s') => (Throw e, s')
    | (OutOfFuel, s') => (OutOfFuel, s')
    end.

Definition throw {A} (e : JsError) : M A := fun s => (Throw e, s).

Definition try_catch {A} (m : M A) (handler : JsError -> M A) : M A :=
  fun s =>
    match m s with
    | (Throw e, s') => handler e s'
    | other => other
    end.

Definition try_finally {A} (m : M A) (finalizer : M unit) : M A :=
  fun s =>
    match m s with
    | (OutOfFuel, s') => (OutOfFuel, s')
    | (c, s') =>
        match finalizer s' with
        | (Normal _, s'') => (c, s'')
        | (Throw e, s'') => (Throw e, s'')
        | (OutOfFuel, s'') => (OutOfFuel, s'')
        end
    end.

Definition gets {A} (f : Store -> A) : M A := fun s => (Normal (f s), s).
Definition modify (f : Store -> Store) : M unit := fun s => (Normal tt, f s).

Declare Scope js_scope.
Delimit Scope js_scope with js.
Notation "x <- m ;; k" := (bind m (fun x => k))
  (at level 61, m at next level, right associativity) : js_scope.
Notation "m ;; k" := (bind m (fun _ => k))
  (at level 61, right associativity) : js_scope.
Local Open Scope js_scope.

(** Loop control: how one pass through a loop body ends. *)
Inductive LoopCtl : Type :=
| CtlNext      (* fell off the end of the body *)
| CtlContinue  (* continue *)
| CtlBreak.    (* break *)

(** [while (cond) body], unrolled at most [fuel] times. *)
Fixpoint while (fuel : nat) (cond : Store -> bool) (body : M LoopCtl) : M unit :=
  fun s =>
    if cond s then
      match fuel with
      | O => (OutOfFuel, s)
      | S fuel' =>
          match body s with
          | (Normal CtlBreak, s') => (Normal tt, s')
          | (Normal _, s') => while fuel' cond body s'
          | (Throw e, s') => (Throw e, s')
          | (OutOfFuel, s') => (OutOfFuel, s')
          end
      end
    else (Normal tt, s).

(** ** The function *)

Definition prompt : string :=
  "Describe this image in a concise and detailed manner for alt text purposes. Focus on key visual elements, colors, and the subject matter. Start directly with the description without any introductory phrases like 'The image shows...'".

Definition payload (base64Data mimeType : string) : jsval :=
  JObj [("contents"%string,
         JArr [JObj [("role"%string, JStr "user");
                     ("parts"%string,
                      JArr [JObj [("text"%string, JStr prompt)];
                            JObj [("inlineData"%string,
                                   JObj [("mimeType"%string, JStr mimeType);
                                         ("data"%string, JStr base64Data)])]])]])].

Definition apiKey : string := "".
Definition apiUrl : string :=
  ("https://generativelanguage.googleapis.com/v1beta/models/gemini-2.5-flash-preview-05-20:generateContent?key="
   ++ apiKey)%string.

Definition maxRetries : Z := 5.

Definition request (base64Data mimeType : string) : RequestInit :=
  mkRequestInit "POST" [("Content-Type"%string, "application/json"%string)]
                (JSON_stringify (payload base64Data mimeType)).

(** String(n) for an integer-valued number, as a template literal prints it. *)
Definition string_of_Z (n : Z) : string := NilZero.string_of_int (Z.to_int n).

Definition setIsLoading (b : bool) : M unit := modify (with_isLoading b).
Definition setMessage (m : string) : M unit := modify (with_message m).
Definition setAltText (v : jsval) : M unit := modify (with_altText v).
Definition console_error (e : JsError) : M unit :=
  modify (fun s => with_console (console s ++ [e]) s).

(** [await new Promise(resolve => setTimeout(resolve, ms))]. *)
Definition sleep (ms : Z) : M unit :=
  modify (fun s => with_log (log s ++ [EvSleep ms]) s).

(** [await response.json()]. *)
Definition response_json (r : Response) : M jsval :=
  match json r with
  | Parsed v => ret v
  | Malformed why => throw (SyntaxError why)
  end.

Section Client.

Variable endpoint : Endpoint.

(** [await fetch(url, init)]: the call is logged and counted whether it
    resolves or rejects. *)
Definition fetch (url : string) (init : RequestInit) : M Response :=
  fun s =>
    let s' := with_calls (S (calls s)) (with_log (log s ++ [EvFetch url init]) s) in
    match endpoint (calls s) url init with
    | Resolves r => (Normal r, s')
    | Rejects reason => (Throw (TypeError reason), s')
    end.

(** The body of the retry loop, lines 112-138. *)
Definition loop_body (init : RequestInit) : M LoopCtl :=
  try_catch
    (r <- fetch apiUrl init ;;
     modify (with_response (Some r)) ;;
     if status r =? 429 then
       d <- gets delay ;;
       sleep d ;;
       modify (fun s => with_delay (delay s * 2) s) ;;
       modify (fun s => with_retries (retries s + 1) s) ;;
       ret CtlContinue
     else if negb (ok r) then
       throw (Error ("API error: " ++ string_of_Z (status r) ++ " " ++ statusText r)%string)
     else
       ret CtlBreak)
    (fun error =>
       modify (fun s => with_retries (retries s + 1) s) ;;
       n <- gets retries ;;
       if n >=? maxRetries then throw error
       else
         d <- gets delay ;;
         sleep d ;;
         modify (fun s => with_delay (delay s * 2) s) ;;
         ret CtlNext).

(** The loop test, [retries < maxRetries]. *)
Definition loop_cond (s : Store) : bool := retries s <? maxRetries.

(** Lines 106-139: the declarations and the loop. *)
Definition retry_loop (fuel : nat) (init : RequestInit) : M unit :=
  modify (with_response None) ;;
  modify (with_delay 1000) ;;
  modify (with_retries 0) ;;
  while fuel loop_cond (loop_body init).

Definition generatedText_of (result : jsval) : jsval :=
  opt_member
    (opt_index0
       (opt_member
          (opt_member (opt_index0 (opt_member result "candidates")) "content")
          "parts"))
    "text".

(** Lines 141-153: what follows the loop inside the [try] block. *)
Definition after_loop : M unit :=
  resp <- gets response ;;
  match resp with
  | None => throw (Error "Failed to fetch from API after multiple retries.")
  | Some r =>
      result <- response_json r ;;
      let generatedText := generatedText_of result in
      if truthy generatedText then
        setAltText generatedText ;;
        setMessage "Alt text generated successfully!"
      else
        setMessage "Could not generate alt text. Please try a different image."
  end.

(** Lines 82-153: the [try] block. *)
Definition generateAltText_try (fuel : nat) (base64Data mimeType : string) : M unit :=
  retry_loop fuel (request base64Data mimeType) ;;
  after_loop.

(** Lines 77-160. *)
Definition generateAltText (fuel : nat) (base64Data mimeType : string) : M unit :=
  setIsLoading true ;;
  setMessage "Analyzing image..." ;;
  try_finally
    (try_catch
       (generateAltText_try fuel base64Data mimeType)
       (fun error =>
          console_error error ;;
          setMessage "An error occurred. Please check the console for details."))
    (setIsLoading false).

End Client.

(** ** Reading the model *)

(** [v[n]] on an array, for reading the request envelope back. *)
Definition elem (n : nat) (v : jsval) : jsval :=
  match v with
  | JArr elems => nth n elems JUndefined
  | _ => JUndefined
  end.

(** [payload.contents[0].parts[1].inlineData]. *)
Definition inlineData_of (p : jsval) : jsval :=
  opt_member (elem 1 (opt_member (elem 0 (opt_member p "contents")) "parts"))
             "inlineData".

(** The store [s'] continues the log of [s]. *)
Definition extends (s s' : Store) : Prop := exists l, log s' = log s ++ l.

Definition log_monotone {A} (m : M A) : Prop := forall s, extends s (snd (m s)).

(** ** Vocabulary of the proofs *)

(** The [catch] block of the loop, lines 131-138, run in store [s]. *)
Definition handler_result (error : JsError) (s : Store) : Completion LoopCtl * Store :=
  let s1 := with_retries (retries s + 1) s in
  if retries s + 1 >=? maxRetries then (Throw error, s1)
  else (Normal CtlNext,
        with_delay (delay s * 2) (with_log (log s ++ [EvSleep (delay s)]) s1)).

(** Lines 154-159: the outer [catch] and [finally]. *)
Definition conclude (r : Completion unit * Store) : Completion unit * Store :=
  match r with
  | (Normal _, s) => (Normal tt, with_isLoading false s)
  | (Throw e, s) =>
      (Normal tt,
       with_isLoading false
         (with_message "An error occurred. Please check the console for details."
            (with_console (console s ++ [e]) s)))
  | (OutOfFuel, s) => (OutOfFuel, s)
  end.

(** The store in which the loop test is first evaluated. *)
Definition loop_entry (s : Store) : Store :=
  with_retries 0
    (with_delay 1000
       (with_response None
          (with_message "Analyzing image..." (with_isLoading true s)))).

(** The part of the store the retry loop never writes. *)
Definition same_page (s s' : Store) : Prop :=
  console s' = console s /\ isLoading s' = isLoading s /\
  message s' = message s /\ altText s' = altText s.

(** The two stores agree on the variables of the function. *)
Definition locals_eq (s1 s2 : Store) : Prop :=
  response s1 = response s2 /\ delay s1 = delay s2 /\ retries s1 = retries s2.

(** The log of [k] attempts that each end in a backoff wait, the first wait
    lasting [d] ms. *)
Definition attempts_log (init : RequestInit) (d : Z) (k : nat) : list Event :=
  flat_map (fun i => [EvFetch apiUrl init; EvSleep (d * 2 ^ Z.of_nat i)]) (seq 0 k).

(** A call that did not succeed: a response outside 200-299 (429 included),
    or a rejected call. *)
Definition failure (p : FetchResult) : Prop :=
  match p with
  | Resolves r => ok r = false
  | Rejects _ => True
  end.

(** The error the [catch] block receives when a call does not succeed and
    is not a 429. *)
Definition error_of (p : FetchResult) : JsError :=
  match p with
  | Resolves r =>
      Error ("API error: " ++ string_of_Z (status r) ++ " " ++ statusText r)%string
  | Rejects reason => TypeError reason
  end.

(** A failure other than 429, as the [catch] block sees it. *)
Definition hard_failure (p : FetchResult) : Prop :=
  match p with
  | Resolves r => ok r = false /\ status r <> 429
  | Rejects _ => True
  end.

(** The [i]-th call after store [s] fails and is retried: a 429, or another
    failure while attempts remain. *)
Definition retried (endpoint : Endpoint) (init : RequestInit) (s : Store) (i : nat)
  : Prop :=
  match endpoint (calls s + i)%nat apiUrl init with
  | Resolves r =>
      status r = 429 \/ (ok r = false /\ retries s + Z.of_nat i + 1 < maxRetries)
  | Rejects _ => retries s + Z.of_nat i + 1 < maxRetries
  end.

(** What [response] holds after a call settled. *)
Definition response_after (p : FetchResult) (before : option Response)
  : option Response :=
  match p with
  | Resolves r => Some r
  | Rejects _ => before
  end.

(** What [response] holds after the first [k] calls made from store [s]. *)
Fixpoint response_at (endpoint : Endpoint) (init : RequestInit) (s : Store) (k : nat)
  : option Response :=
  match k with
  | O => response s
  | S j => response_after (endpoint (calls s + j)%nat apiUrl init) (response_at endpoint init s j)
  end.

(** The number of passes the loop can still make. *)
Definition remaining (s : Store) : nat := Z.to_nat (maxRetries - retries s).

(** The stores in which the loop test is evaluated: on entry, with the
    declared initial values, and after every pass that did not leave the
    loop. *)
Inductive loop_head (endpoint : Endpoint) (init : RequestInit) : Store -> Prop :=
| head_entry s :
    delay s = 1000 -> retries s = 0 -> loop_head endpoint init s
| head_again s c s' :
    loop_head endpoint init s -> loop_cond s = true ->
    loop_body endpoint init s = (Normal c, s') -> c <> CtlBreak ->
    loop_head endpoint init s'.

(** The waits recorded in a log, in order. *)
Fixpoint sleeps_of (l : list Event) : list Z :=
  match l with
  | [] => []
  | EvSleep ms :: rest => ms :: sleeps_of rest
  | EvFetch _ _ :: rest => sleeps_of rest
  end.

(** The first [n] backoff delays: 1000, 2000, 4000, ... *)
Definition backoff_waits (n : nat) : list Z :=
  map (fun i => 1000 * 2 ^ Z.of_nat i) (seq 0 n).

Definition total (l : list Z) : Z := fold_right Z.add 0 l.

(** The waits made so far, seen from the loop test: one per attempt used. *)
Definition waits_so_far (s0 s : Store) : Prop :=
  0 <= retries s <= maxRetries /\
  delay s = 1000 * 2 ^ retries s /\
  exists new,
    log s = log s0 ++ new /\
    sleeps_of new = backoff_waits (Z.to_nat (retries s)).

(** The waits made when the loop is left. *)
Definition waits_at_exit (s0 s : Store) : Prop :=
  exists new n,
    log s = log s0 ++ new /\ (n <= 5)%nat /\ sleeps_of new = backoff_waits n.

(** How the loop can be left: normally with [response] set, or with the
    error of a failed call; the console is not written to meanwhile. *)
Definition loop_exit (s0 : Store) (c : Completion unit) (s : Store) : Prop :=
  console s = console s0 /\
  match c with
  | Normal _ => response s <> None
  | Throw e => exists p, e = error_of p
  | OutOfFuel => True
  end.

(** ** Sample data *)

(** A 200 response whose first candidate carries [text]. *)
Definition ok_response (text : jsval) : Response :=
  mkResponse 200 "OK"
    (Parsed
       (JObj [("candidates"%string,
               JArr [JObj [("content"%string,
                           JObj [("parts"%string,
                                  JArr [JObj [("text"%string, text)]])])]])])).

(** A 429 response with the error envelope of the API. *)
Definition rate_limited_response : Response :=
  mkResponse 429 "Too Many Requests"
    (Parsed
       (JObj [("error"%string,
               JObj [("code"%string, JNum (S754_finite false 429 0));
                     ("status"%string, JStr "RESOURCE_EXHAUSTED")])])).

(** The page as [handleFile] leaves it before calling [generateAltText]. *)
Definition fresh_page : Store :=
  mkStore None 0 0 O [] [] false "" (JStr "").

(** An endpoint that answers 429 to the first [k] calls and then succeeds
    with [text]. *)
Definition throttling_endpoint (k : nat) (text : string) : Endpoint :=
  fun n _ _ =>
    if (n <? k)%nat then Resolves rate_limited_response
    else Resolves (ok_response (JStr text)).

(** An endpoint that answers 429 to every call. *)
Definition always_rate_limited : Endpoint :=
  fun _ _ _ => Resolves rate_limited_response.


(** An endpoint that fails five times, three times with a 500 response and
    twice with a rejected call, in turn. *)
Definition failing_endpoint : Endpoint :=
  fun n _ _ =>
    if Nat.even n then
      Resolves (mkResponse 500 "Internal Server Error" (Malformed "Unexpected token"))
    else Rejects "Failed to fetch".

(** A page on which an earlier call has run, all five attempts rejected. *)
Definition used_page : Store :=
  mkStore None 16000 5 5%nat
          (attempts_log (request "eA==" "image/gif") 1000 4
             ++ [EvFetch apiUrl (request "eA==" "image/gif")])
          [TypeError "Failed to fetch"]
          false "An error occurred. Please check the console for details."
          (JStr "An old caption.").

(** The endpoint [ep] as a page sees it that has made [n] calls before. *)
Definition replayed (n : nat) (ep : Endpoint) : Endpoint :=
  fun i url init => ep (i - n)%nat url init.

(** A call answered with status 429. *)
Definition rate_limited (p : FetchResult) : Prop :=
  match p with
  | Resolves r => status r = 429
  | Rejects _ => False
  end.

(** The store at the loop test after four passes against
    [failing_endpoint], each of which failed and was retried. *)
Definition after_four_failures : Store :=
  Nat.iter 4 (fun s => snd (loop_body failing_endpoint (request "aGk=" "image/png") s))
           (loop_entry fresh_page).

(** ** The page around the call *)

(** [payload] with [base64Data] ranging over all values: [handleFile] passes
    [undefined] when the reader's result holds no comma. *)
Definition payload_js (base64Data : jsval) (mimeType : string) : jsval :=
  JObj [("contents"%string,
         JArr [JObj [("role"%string, JStr "user");
                     ("parts"%string,
                      JArr [JObj [("text"%string, JStr prompt)];
                            JObj [("inlineData"%string,
                                   JObj [("mimeType"%string, JStr mimeType);
                                         ("data"%string, base64Data)])]])]])].

Definition request_js (base64Data : jsval) (mimeType : string) : RequestInit :=
  mkRequestInit "POST" [("Content-Type"%string, "application/json"%string)]
                (JSON_stringify (payload_js base64Data mimeType)).

(** Lines 77-160 again, for any value of [base64Data]. *)
Definition generateAltText_js (endpoint : Endpoint) (fuel : nat)
           (base64Data : jsval) (mimeType : string) : M unit :=
  (setIsLoading true ;;
   setMessage "Analyzing image..." ;;
   try_finally
     (try_catch
        (retry_loop endpoint fuel (request_js base64Data mimeType) ;; after_loop)
        (fun error =>
           console_error error ;;
           setMessage "An error occurred. Please check the console for details."))
     (setIsLoading false))%js.

(** [s.split(sep)] for a one-character separator. *)
Fixpoint str_split (sep : ascii) (s : string) : list string :=
  match s with
  | EmptyString => [EmptyString]
  | String c rest =>
      if Ascii.eqb c sep then EmptyString :: str_split sep rest
      else
        match str_split sep rest with
        | [] => [String c EmptyString]
        | seg :: segs => String c seg :: segs
        end
  end.

(** A file as the handlers see it: its [type], and what
    [FileReader.readAsDataURL] yields for it, a data URL or, when reading
    fails, nothing. *)
Record File : Type := mkFile {
  type : string;
  dataURL : option string
}.

(** The string an [input] element takes as its value when assigned [v]; the
    conversion is the runtime's and is kept symbolic. *)
Inductive DomString : Type :=
| ToString (v : jsval).

(** What the handlers do to the event and to the document, in order. *)
Inductive Effect : Type :=
| PreventDefault
| CreateInput
| SetValue (v : DomString)
| AppendChild
| Select
| ExecCommand (command : string)
| RemoveChild.

(** The component: the store of [generateAltText], the two remaining pieces
    of React state, the effects so far, and the exceptions that left an
    event handler uncaught. *)
Record Page : Type := mkPage {
  store : Store;
  image : option string;
  isDragging : bool;
  effects : list Effect;
  uncaught : list JsError
}.

Definition with_store (x : Store) (p : Page) : Page :=
  mkPage x (image p) (isDragging p) (effects p) (uncaught p).
Definition with_image (x : option string) (p : Page) : Page :=
  mkPage (store p) x (isDragging p) (effects p) (uncaught p).
Definition with_isDragging (x : bool) (p : Page) : Page :=
  mkPage (store p) (image p) x (effects p) (uncaught p).
Definition with_effects (x : list Effect) (p : Page) : Page :=
  mkPage (store p) (image p) (isDragging p) x (uncaught p).
Definition with_uncaught (x : list JsError) (p : Page) : Page :=
  mkPage (store p) (image p) (isDragging p) (effects p) x.

(** Run a piece of [generateAltText]'s monad on the page's store. *)
Definition on_store (m : M unit) (p : Page) : Completion unit * Page :=
  let (c, s') := m (store p) in (c, with_store s' p).

(** A state setter applied to the page's store. *)
Definition set_store (f : Store -> Store) (p : Page) : Page :=
  with_store (f (store p)) p.

(** The TypeError of reading [split] off a null [reader.result]; its wording
    is the engine's. *)
Definition null_result_error : JsError :=
  TypeError "Cannot read properties of null (reading 'split')".

(** [reader.onloadend], lines 64-69, for a file of type [file_type] whose
    read ended with [result] ([None] is null). *)
Definition onloadend (endpoint : Endpoint) (fuel : nat) (file_type : string)
           (result : option string) (p : Page) : Completion unit * Page :=
  match result with
  | None => (Normal tt, with_uncaught (uncaught p ++ [null_result_error]) p)
  | Some url =>
      let base64Data :=
        match nth_error (str_split "," url) 1 with
        | Some part => JStr part
        | None => JUndefined
        end in
      on_store (generateAltText_js endpoint fuel base64Data file_type)
               (with_image (Some url) p)
  end.

(** [reader.onerror], lines 70-72. *)
Definition onerror (p : Page) : Page :=
  set_store (with_message "Error reading file. Please try again.") p.

(** [handleFile], lines 60-74, followed by the events of the read it
    starts, with no other handler run in between: [loadend] after a
    successful read, [error] and then [loadend] after a failed one. *)
Definition handleFile (endpoint : Endpoint) (fuel : nat) (file : File) (p : Page)
  : Completion unit * Page :=
  let p1 := set_store (with_message "") (set_store (with_altText (JStr "")) p) in
  match dataURL file with
  | Some url => onloadend endpoint fuel (type file) (Some url) p1
  | None => onloadend endpoint fuel (type file) None (onerror p1)
  end.

(** [handleDrop], lines 38-49; [files] is [e.dataTransfer.files]. *)
Definition handleDrop (endpoint : Endpoint) (fuel : nat) (files : list File) (p : Page)
  : Completion unit * Page :=
  let p1 := with_isDragging false (with_effects (effects p ++ [PreventDefault]) p) in
  match files with
  | [] => (Normal tt, p1)
  | file :: _ =>
      if negb (prefix "image/" (type file)) then
        (Normal tt, set_store (with_message "Please drop a valid image file.") p1)
      else handleFile endpoint fuel file p1
  end.

(** [handleFileChange], lines 52-57; [files] is [e.target.files]. *)
Definition handleFileChange (endpoint : Endpoint) (fuel : nat) (files : list File)
           (p : Page) : Completion unit * Page :=
  match files with
  | [] => (Normal tt, p)
  | file :: _ => handleFile endpoint fuel file p
  end.


(** [handleReset], lines 177-183. *)
Definition handleReset (p : Page) : Page :=
  set_store (with_isLoading false)
    (with_isDragging false
       (set_store (with_message "")
          (set_store (with_altText (JStr "")) (with_image None p)))).

(** What the returned tree shows, lines 219-271: the preview, the spinner,
    the message box, the alt-text panel with its copy button, and the reset
    button. *)
Record View : Type := mkView {
  preview : option string;
  spinner : bool;
  message_box : option string;
  altText_panel : option jsval;
  reset_button : bool
}.

(** A value React accepts as a child, as in [{altText}]: strings and numbers
    are text, booleans, null and undefined are nothing, an array is its
    elements in turn; an object is refused with an error. *)
Fixpoint valid_child (v : jsval) : bool :=
  match v with
  | JObj _ => false
  | JArr elems => forallb valid_child elems
  | _ => true
  end.

(** [image] as a condition: neither null nor the empty string. *)
Definition image_shown (i : option string) : bool :=
  match i with
  | Some url => negb (String.eqb url EmptyString)
  | None => false
  end.

(** The tree of lines 185-275 for a page, or nothing when building it
    throws: the alt-text panel is built when [altText && !isLoading], and
    an alt text that is not a valid child then throws, which, with no error
    boundary around [App], takes the whole tree down. *)
Definition render (p : Page) : option View :=
  let s := store p in
  if truthy (altText s) && negb (isLoading s) && negb (valid_child (altText s))
  then None
  else
    Some
      (mkView
         (if image_shown (image p) then image p else None)
         (isLoading s)
         (if negb (String.eqb (message s) EmptyString) && negb (isLoading s)
          then Some (message s) else None)
         (if truthy (altText s) && negb (isLoading s) then Some (altText s) else None)
         (image_shown (image p) || truthy (altText s))).


(** A string without the character [c]. *)
Fixpoint lacks (c : ascii) (s : string) : bool :=
  match s with
  | EmptyString => true
  | String c' rest => negb (Ascii.eqb c' c) && lacks c rest
  end.

(** A page on which nothing has happened yet. *)
Definition new_page : Page := mkPage fresh_page None false [] [].

(** A PNG file whose base64 data is "aGk=". *)
Definition png_file : File :=
  mkFile "image/png" (Some "data:image/png;base64,aGk="%string).

(** A text file the reader reads as well as any other. *)
Definition text_file : File :=
  mkFile "text/plain" (Some "data:text/plain;base64,aGk="%string).

(** A file the reader fails to read. *)
Definition unreadable_file : File := mkFile "image/png" None.

(** A 200 response whose body is not JSON. *)
Definition html_response : Response :=
  mkResponse 200 "OK" (Malformed "Unexpected token '<'").

(** The attempts made so far, seen from the loop test: [n] calls, each
    followed by its wait. *)
Definition attempts_made (init : RequestInit) (s0 s : Store) : Prop :=
  exists n,
    (n <= 5)%nat /\ retries s = Z.of_nat n /\ delay s = 1000 * 2 ^ Z.of_nat n /\
    log s = log s0 ++ attempts_log init 1000 n /\
    calls s = (calls s0 + n)%nat.

(** The two shapes the log of a call can have: up to four attempts that
    were waited after and then a last call, or five attempts all waited
    after. *)
Definition call_shape (init : RequestInit) (s0 s : Store) : Prop :=
  (exists n,
     (n <= 4)%nat /\
     log s = log s0 ++ attempts_log init 1000 n ++ [EvFetch apiUrl init] /\
     calls s = (calls s0 + n + 1)%nat)
  \/
  (log s = log s0 ++ attempts_log init 1000 5 /\ calls s = (calls s0 + 5)%nat).

(** How a finished call leaves the page, seen from the store before it. *)
Definition call_outcome (s s' : Store) : Prop :=
  (message s' = "Alt text generated successfully!"%string /\
   truthy (altText s') = true /\ console s' = console s)
  \/
  (message s' = "Could not generate alt text. Please try a different image."%string /\
   altText s' = altText s /\ console s' = console s)
  \/
  (message s' = "An error occurred. Please check the console for details."%string /\
   altText s' = altText s /\ exists e, console s' = console s ++ [e]).

(** An endpoint whose first four calls fail in three different ways (429,
    rejected, 500, 429) and whose later calls settle to [last]. *)
Definition mixed_then (last : FetchResult) : Endpoint :=
  fun n _ _ =>
    match n with
    | 0%nat => Resolves rate_limited_response
    | 1%nat => Rejects "Failed to fetch"
    | 2%nat => Resolves (mkResponse 500 "Internal Server Error" (Malformed "Unexpected token"))
    | 3%nat => Resolves rate_limited_response
    | _ => last
    end.

(** ** Basic facts *)

Lemma geb_false n m : n < m -> (n >=? m) = false.
Proof. intros H. rewrite Z.geb_leb. now apply Z.leb_gt. Qed.

Lemma geb_true n m : m <= n -> (n >=? m) = true.
Proof. intros H. rewrite Z.geb_leb. now apply Z.leb_le. Qed.

Lemma extends_refl s : extends s s.
Proof. exists []. now rewrite app_nil_r. Qed.

Lemma extends_trans s1 s2 s3 : extends s1 s2 -> extends s2 s3 -> extends s1 s3.
Proof.
  intros [l1 H1] [l2 H2]. exists (l1 ++ l2).
  now rewrite H2, H1, app_assoc.
Qed.

Lemma extends_same_log s s' : log s' = log s -> extends s s'.
Proof. intros H. exists []. now rewrite app_nil_r. Qed.

Create HintDb mono.

Lemma mono_ret {A} (a : A) : log_monotone (ret a).
Proof. intros s. apply extends_refl. Qed.

Lemma mono_throw {A} e : log_monotone (@throw A e).
Proof. intros s. apply extends_refl. Qed.

Lemma mono_gets {A} (f : Store -> A) : log_monotone (gets f).
Proof. intros s. apply extends_refl. Qed.

Lemma mono_modify f :
  (forall s, log (f s) = log s) -> log_monotone (modify f).
Proof. intros H s. apply extends_same_log. apply H. Qed.

Lemma mono_bind {A B} (m : M A) (k : A -> M B) :
  log_monotone m -> (forall a, log_monotone (k a)) -> log_monotone (bind m k).
Proof.
  intros Hm Hk s. unfold bind. specialize (Hm s).
  destruct (m s) as [[a | e |] s1]; simpl in *; auto.
  eapply extends_trans; [exact Hm | apply Hk].
Qed.

Lemma mono_try_catch {A} (m : M A) h :
  log_monotone m -> (forall e, log_monotone (h e)) -> log_monotone (try_catch m h).
Proof.
  intros Hm Hh s. unfold try_catch. specialize (Hm s).
  destruct (m s) as [[a | e |] s1]; simpl in *; auto.
  eapply extends_trans; [exact Hm | apply Hh].
Qed.

Lemma mono_try_finally {A} (m : M A) fin :
  log_monotone m -> log_monotone fin -> log_monotone (try_finally m fin).
Proof.
  intros Hm Hf s. unfold try_finally. specialize (Hm s).
  destruct (m s) as [[a | e |] s1]; simpl in *; auto;
    specialize (Hf s1); destruct (fin s1) as [[[] | e' |] s2]; simpl in *;
    eapply extends_trans; eauto.
Qed.

Lemma mono_sleep ms : log_monotone (sleep ms).
Proof. intros s. now exists [EvSleep ms]. Qed.

Lemma mono_fetch ep url init : log_monotone (fetch ep url init).
Proof.
  intros s. unfold fetch.
  destruct (ep (calls s) url init); now exists [EvFetch url init].
Qed.

Lemma mono_if {A} (b : bool) (m1 m2 : M A) :
  log_monotone m1 -> log_monotone m2 -> log_monotone (if b then m1 else m2).
Proof. now destruct b. Qed.

Lemma mono_while fuel cond body :
  log_monotone body -> log_monotone (while fuel cond body).
Proof.
  intros Hb. induction fuel as [| fuel IH]; intros s; simpl;
    destruct (cond s); try apply extends_refl.
  specialize (Hb s). destruct (body s) as [[[] | e |] s1]; simpl in *; auto;
    eapply extends_trans; eauto.
Qed.

#[export] Hint Resolve mono_ret mono_throw mono_gets mono_bind mono_try_catch
  mono_try_finally mono_sleep mono_fetch mono_if mono_while : mono.
#[export] Hint Extern 1 (log_monotone (modify _)) =>
  (apply mono_modify; intros; reflexivity) : mono.

Lemma mono_response_json r : log_monotone (response_json r).
Proof. unfold response_json. destruct (json r); auto with mono. Qed.
#[export] Hint Resolve mono_response_json : mono.

Ltac mono_steps :=
  repeat (intros;
          match goal with
          | |- log_monotone (bind _ _) => apply mono_bind
          | |- log_monotone (try_catch _ _) => apply mono_try_catch
          | |- log_monotone (try_finally _ _) => apply mono_try_finally
          | |- log_monotone (if _ then _ else _) => apply mono_if
          | |- log_monotone (modify _) => apply mono_modify; intros; reflexivity
          | |- log_monotone _ => solve [auto with mono]
          end).

(** Evaluation of the monad's plumbing and of the store's fields, leaving
    arithmetic and strings alone. *)
Ltac js_simpl :=
  unfold setIsLoading, setMessage, setAltText, console_error, sleep,
         try_catch, try_finally, bind, ret, throw, gets, modify;
  cbn [response delay retries calls log console isLoading message altText
       with_response with_delay with_retries with_calls with_log with_console
       with_isLoading with_message with_altText fst snd negb].

Section ClientFacts.

Variable endpoint : Endpoint.
Variable init : RequestInit.

Local Abbreviation attempts_log := (attempts_log init).
Local Abbreviation retried := (retried endpoint init).
Local Abbreviation response_at := (response_at endpoint init).

(** One pass through the loop body, by the way the network call settles. *)
Lemma loop_body_eq s :
  loop_body endpoint init s =
  let s1 := with_calls (S (calls s)) (with_log (log s ++ [EvFetch apiUrl init]) s) in
  match endpoint (calls s) apiUrl init with
  | Resolves r =>
      let s2 := with_response (Some r) s1 in
      if status r =? 429 then
        (Normal CtlContinue,
         with_retries (retries s + 1)
           (with_delay (delay s * 2) (with_log (log s2 ++ [EvSleep (delay s)]) s2)))
      else if negb (ok r) then
        handler_result
          (Error ("API error: " ++ string_of_Z (status r) ++ " " ++ statusText r)%string) s2
      else (Normal CtlBreak, s2)
  | Rejects reason => handler_result (TypeError reason) s1
  end.
Proof.
  unfold loop_body, handler_result, fetch. js_simpl.
  destruct (endpoint (calls s) apiUrl init) as [r | e]; js_simpl.
  - destruct (status r =? 429); js_simpl; [reflexivity |].
    destruct (ok r); js_simpl; [reflexivity |].
    destruct (retries s + 1 >=? maxRetries); reflexivity.
  - destruct (retries s + 1 >=? maxRetries); reflexivity.
Qed.

Lemma mono_loop_body : log_monotone (loop_body endpoint init).
Proof. unfold loop_body. mono_steps. Qed.

Lemma mono_after_loop : log_monotone after_loop.
Proof.
  unfold after_loop. apply mono_bind; [mono_steps |].
  intros [r |]; unfold setAltText, setMessage; mono_steps.
Qed.

Lemma same_page_refl s : same_page s s.
Proof. repeat split. Qed.

Lemma same_page_trans s1 s2 s3 :
  same_page s1 s2 -> same_page s2 s3 -> same_page s1 s3.
Proof. unfold same_page. intuition congruence. Qed.

Lemma attempts_log_S d k :
  attempts_log d (S k) =
  attempts_log d k ++ [EvFetch apiUrl init; EvSleep (d * 2 ^ Z.of_nat k)].
Proof.
  unfold attempts_log. now rewrite seq_S, flat_map_app.
Qed.

Lemma while_S fuel cond body s :
  while (S fuel) cond body s =
  if cond s then
    match body s with
    | (Normal CtlBreak, s') => (Normal tt, s')
    | (Normal _, s') => while fuel cond body s'
    | (Throw e, s') => (Throw e, s')
    | (OutOfFuel, s') => (OutOfFuel, s')
    end
  else (Normal tt, s).
Proof. reflexivity. Qed.

Lemma while_done fuel cond body s :
  cond s = false -> while fuel cond body s = (Normal tt, s).
Proof. intros H. destruct fuel; simpl; now rewrite H. Qed.

(** A retried failure: the loop goes round once, having waited [delay]. *)
Lemma loop_body_retried s :
  retried s 0 ->
  exists c s',
    loop_body endpoint init s = (Normal c, s') /\ c <> CtlBreak /\
    retries s' = retries s + 1 /\ delay s' = delay s * 2 /\
    calls s' = S (calls s) /\
    log s' = log s ++ [EvFetch apiUrl init; EvSleep (delay s)] /\
    response s' = response_after (endpoint (calls s) apiUrl init) (response s) /\
    same_page s s'.
Proof.
  unfold retried. rewrite Nat.add_0_r, Z.add_0_r, loop_body_eq.
  unfold handler_result.
  destruct (endpoint (calls s) apiUrl init) as [r | e]; cbv zeta.
  - intros [H429 | [Hok Hlt]].
    + apply Z.eqb_eq in H429. rewrite H429.
      eexists _, _. split; [reflexivity |]. js_simpl.
      rewrite <- app_assoc. repeat split; congruence.
    + destruct (status r =? 429).
      * eexists _, _. split; [reflexivity |]. js_simpl.
        rewrite <- app_assoc. repeat split; congruence.
      * rewrite Hok. js_simpl.
        replace (retries s + 1 >=? maxRetries) with false
          by (symmetry; apply geb_false; lia).
        eexists _, _. split; [reflexivity |]. js_simpl.
        rewrite <- app_assoc. repeat split; congruence.
  - intros Hlt. js_simpl.
    replace (retries s + 1 >=? maxRetries) with false
      by (symmetry; apply geb_false; lia).
    eexists _, _. split; [reflexivity |]. js_simpl.
    rewrite <- app_assoc. repeat split; congruence.
Qed.

(** [k] retried failures in a row: the loop goes round [k] times. *)
Lemma while_retried_prefix k : forall fuel s,
  (k <= fuel)%nat ->
  retries s + Z.of_nat k <= maxRetries ->
  (forall i, (i < k)%nat -> retried s i) ->
  exists s',
    while fuel loop_cond (loop_body endpoint init) s =
      while (fuel - k) loop_cond (loop_body endpoint init) s' /\
    retries s' = retries s + Z.of_nat k /\
    delay s' = delay s * 2 ^ Z.of_nat k /\
    calls s' = (calls s + k)%nat /\
    log s' = log s ++ attempts_log (delay s) k /\
    response s' = response_at s k /\
    same_page s s'.
Proof.
  induction k as [| k IH]; intros fuel s Hfuel Hbudget Hfail.
  - exists s. rewrite Nat.sub_0_r, Nat.add_0_r, Z.add_0_r, Z.mul_1_r.
    unfold attempts_log; simpl. rewrite app_nil_r.
    repeat split.
  - destruct (IH fuel s) as (sk & Hrun & Hr & Hd & Hc & Hl & Hresp & Hpage);
      [lia | lia | intros i Hi; apply Hfail; lia |].
    assert (Hstep : retried sk 0).
    { specialize (Hfail k (Nat.lt_succ_diag_r k)). unfold retried in *.
      now rewrite Nat.add_0_r, Z.add_0_r, Hc, Hr. }
    destruct (loop_body_retried sk Hstep)
      as (c & s' & Hbody & Hc' & Hr' & Hd' & Hcalls' & Hl' & Hresp' & Hpage').
    exists s'. split; [| repeat split].
    + rewrite Hrun. replace (fuel - k)%nat with (S (fuel - S k)) by lia.
      rewrite while_S. unfold loop_cond at 1.
      replace (retries sk <? maxRetries) with true
        by (symmetry; apply Z.ltb_lt; lia).
      rewrite Hbody. now destruct c.
    + lia.
    + rewrite Hd', Hd, Nat2Z.inj_succ, Z.pow_succ_r by lia. ring.
    + lia.
    + now rewrite Hl', Hl, Hd, attempts_log_S, <- app_assoc.
    + now rewrite Hresp', Hresp, Hc.
    + apply (same_page_trans s sk s' Hpage Hpage').
    + apply (same_page_trans s sk s' Hpage Hpage').
    + apply (same_page_trans s sk s' Hpage Hpage').
    + apply (same_page_trans s sk s' Hpage Hpage').
Qed.

Lemma ok_not_429 r : ok r = true -> (status r =? 429) = false.
Proof.
  unfold ok. intros H. apply andb_prop in H as [_ H].
  apply Z.leb_le in H. apply Z.eqb_neq. lia.
Qed.

(** A successful response leaves the loop by [break]. *)
Lemma loop_body_success s r :
  endpoint (calls s) apiUrl init = Resolves r -> ok r = true ->
  loop_body endpoint init s =
  (Normal CtlBreak,
   with_response (Some r)
     (with_calls (S (calls s)) (with_log (log s ++ [EvFetch apiUrl init]) s))).
Proof.
  intros Hep Hok. rewrite loop_body_eq, Hep. cbv zeta.
  now rewrite (ok_not_429 r Hok), Hok.
Qed.

(** The last allowed attempt fails with something other than 429: the error
    leaves the loop, and nothing is waited for. *)
Lemma loop_body_last_failure s :
  hard_failure (endpoint (calls s) apiUrl init) ->
  maxRetries <= retries s + 1 ->
  exists s',
    loop_body endpoint init s =
      (Throw (error_of (endpoint (calls s) apiUrl init)), s') /\
    retries s' = retries s + 1 /\ delay s' = delay s /\
    calls s' = S (calls s) /\
    log s' = log s ++ [EvFetch apiUrl init] /\
    same_page s s'.
Proof.
  intros Hfail Hlast. rewrite loop_body_eq. unfold handler_result.
  destruct (endpoint (calls s) apiUrl init) as [r | e]; cbv zeta; simpl in Hfail.
  - destruct Hfail as [Hok H429]. apply Z.eqb_neq in H429.
    rewrite H429, Hok. js_simpl. rewrite (geb_true _ _ Hlast).
    eexists. split; [reflexivity |]. js_simpl. repeat split.
  - js_simpl. rewrite (geb_true _ _ Hlast).
    eexists. split; [reflexivity |]. js_simpl. repeat split.
Qed.

(** Lines 141-153 by cases. *)
Lemma after_loop_eq s :
  after_loop s =
  match response s with
  | None => (Throw (Error "Failed to fetch from API after multiple retries."), s)
  | Some r =>
      match json r with
      | Parsed result =>
          if truthy (generatedText_of result) then
            (Normal tt,
             with_message "Alt text generated successfully!"
               (with_altText (generatedText_of result) s))
          else
            (Normal tt,
             with_message "Could not generate alt text. Please try a different image." s)
      | Malformed why => (Throw (SyntaxError why), s)
      end
  end.
Proof.
  unfold after_loop, response_json. js_simpl.
  destruct (response s) as [r |]; [| reflexivity].
  destruct (json r) as [v | e]; [| reflexivity].
  now destruct (truthy (generatedText_of v)).
Qed.

Lemma generateAltText_eq fuel base64Data mimeType s :
  generateAltText endpoint fuel base64Data mimeType s =
  match while fuel loop_cond (loop_body endpoint (request base64Data mimeType))
              (loop_entry s) with
  | (Normal _, s1) => conclude (after_loop s1)
  | (Throw e, s1) => conclude (Throw e, s1)
  | (OutOfFuel, s1) => (OutOfFuel, s1)
  end.
Proof.
  unfold generateAltText, generateAltText_try, retry_loop, loop_entry. js_simpl.
  match goal with |- context [while ?f ?c ?b ?x] => destruct (while f c b x) as [[[] | e |] s1] end;
    try reflexivity.
  destruct (after_loop s1) as [[[] | e |] s2]; reflexivity.
Qed.

(** [k] retried failures and then a successful response: the loop is left
    with that response, after [k + 1] calls and [k] waits. *)
Lemma retried_then_response fuel base64Data mimeType s k r :
  (5 <= fuel)%nat -> (k < 5)%nat ->
  init = request base64Data mimeType ->
  (forall i, (i < k)%nat -> retried (loop_entry s) i) ->
  endpoint (calls s + k)%nat apiUrl init = Resolves r ->
  ok r = true ->
  exists s1,
    generateAltText endpoint fuel base64Data mimeType s = conclude (after_loop s1) /\
    response s1 = Some r /\
    calls s1 = (calls s + k + 1)%nat /\
    log s1 = log s ++ attempts_log 1000 k ++ [EvFetch apiUrl init] /\
    console s1 = console s /\ altText s1 = altText s.
Proof.
  intros Hfuel Hk Hinit Hfail Hresp Hok.
  destruct (while_retried_prefix k fuel (loop_entry s))
    as (sk & Hrun & Hr & Hd & Hc & Hl & _ & Hpage);
    [lia | cbn; unfold maxRetries; lia | exact Hfail |].
  cbn [loop_entry calls retries delay log with_retries with_delay with_response
       with_message with_isLoading] in Hr, Hc, Hl.
  assert (Hbody := loop_body_success sk r).
  rewrite Hc in Hbody. specialize (Hbody Hresp Hok).
  match type of Hbody with _ = (_, ?x) => exists x end.
  split; [| repeat split].
  - rewrite generateAltText_eq, <- Hinit, Hrun.
    replace (fuel - k)%nat with (S (fuel - S k)) by lia.
    rewrite while_S. unfold loop_cond at 1.
    replace (retries sk <? maxRetries) with true
      by (symmetry; apply Z.ltb_lt; unfold maxRetries; lia).
    rewrite Hbody. reflexivity.
  - js_simpl. lia.
  - js_simpl. now rewrite Hl, <- app_assoc.
  - apply Hpage.
  - apply Hpage.
Qed.

End ClientFacts.

(** ** The loop as a whole *)

Section Loop.

Variable endpoint : Endpoint.
Variable init : RequestInit.

Local Abbreviation loop_head := (loop_head endpoint init).

(** The three ways a pass through the loop body can end. *)
Lemma loop_body_cases s :
  exists c s',
    loop_body endpoint init s = (c, s') /\
    calls s' = S (calls s) /\
    same_page s s' /\
    ((c = Normal CtlBreak /\ retries s' = retries s /\ delay s' = delay s /\
      log s' = log s ++ [EvFetch apiUrl init] /\
      response s' <> None /\
      ~ failure (endpoint (calls s) apiUrl init))
     \/
     ((c = Normal CtlNext \/ c = Normal CtlContinue) /\
      retries s' = retries s + 1 /\ delay s' = delay s * 2 /\
      log s' = log s ++ [EvFetch apiUrl init; EvSleep (delay s)] /\
      (retries s' < maxRetries \/ response s' <> None) /\
      failure (endpoint (calls s) apiUrl init))
     \/
     (c = Throw (error_of (endpoint (calls s) apiUrl init)) /\
      retries s' = retries s + 1 /\ maxRetries <= retries s + 1 /\
      delay s' = delay s /\
      log s' = log s ++ [EvFetch apiUrl init] /\
      hard_failure (endpoint (calls s) apiUrl init))).
Proof.
  rewrite loop_body_eq. unfold handler_result.
  destruct (endpoint (calls s) apiUrl init) as [r | reason]; cbv zeta;
    cbn [failure hard_failure error_of].
  - destruct (status r =? 429) eqn:H429.
    + eexists _, _. split; [reflexivity |]. js_simpl. rewrite <- app_assoc.
      split; [reflexivity |]. split; [now unfold same_page |].
      right; left. repeat split; auto.
      * right. discriminate.
      * destruct (ok r) eqn:Hok; [| reflexivity].
        rewrite (ok_not_429 r Hok) in H429. discriminate.
    + apply Z.eqb_neq in H429. destruct (ok r) eqn:Hok; js_simpl.
      * eexists _, _. split; [reflexivity |]. js_simpl.
        split; [reflexivity |]. split; [now unfold same_page |].
        left. repeat split; auto; discriminate.
      * destruct (Z_lt_le_dec (retries s + 1) maxRetries) as [Hlt | Hge].
        -- rewrite (geb_false _ _ Hlt). eexists _, _. split; [reflexivity |].
           js_simpl. rewrite <- app_assoc.
           split; [reflexivity |]. split; [now unfold same_page |].
           right; left. repeat split; auto.
        -- rewrite (geb_true _ _ Hge). eexists _, _. split; [reflexivity |].
           js_simpl.
           split; [reflexivity |]. split; [now unfold same_page |].
           right; right. repeat split; auto.
  - js_simpl. destruct (Z_lt_le_dec (retries s + 1) maxRetries) as [Hlt | Hge].
    + rewrite (geb_false _ _ Hlt). eexists _, _. split; [reflexivity |].
      js_simpl. rewrite <- app_assoc.
      split; [reflexivity |]. split; [now unfold same_page |].
      right; left. repeat split; auto.
    + rewrite (geb_true _ _ Hge). eexists _, _. split; [reflexivity |].
      js_simpl.
      split; [reflexivity |]. split; [now unfold same_page |].
      right; right. repeat split; auto.
Qed.

(** The invariant rule for [while]: [I] holds whenever the test is
    evaluated, [Q] when the loop is left. *)
Lemma while_invariant (I : Store -> Prop) (Q : Completion unit -> Store -> Prop)
      cond body :
  (forall s, I s -> cond s = false -> Q (Normal tt) s) ->
  (forall s, I s -> cond s = true ->
     match body s with
     | (Normal CtlBreak, s') => Q (Normal tt) s'
     | (Normal _, s') => I s'
     | (Throw e, s') => Q (Throw e) s'
     | (OutOfFuel, _) => True
     end) ->
  forall fuel s, I s ->
    match while fuel cond body s with
    | (OutOfFuel, _) => True
    | (c, s') => Q c s'
    end.
Proof.
  intros Hexit Hbody. induction fuel as [| fuel IH]; intros s HI; simpl.
  - destruct (cond s) eqn:Hc; [exact Logic.I | now apply Hexit].
  - destruct (cond s) eqn:Hc; [| now apply Hexit].
    specialize (Hbody s HI Hc).
    destruct (body s) as [[[] | e |] s']; try (apply IH; assumption);
      try assumption; exact Logic.I.
Qed.

(** With as much fuel as there are attempts left the loop ends by itself,
    and more fuel changes nothing. *)
Lemma while_enough_fuel n : forall s,
  (remaining s <= n)%nat ->
  fst (while n loop_cond (loop_body endpoint init) s) <> OutOfFuel /\
  forall fuel, (n <= fuel)%nat ->
    while fuel loop_cond (loop_body endpoint init) s =
    while n loop_cond (loop_body endpoint init) s.
Proof.
  induction n as [| n IH]; intros s Hrem.
  - assert (Hc : loop_cond s = false).
    { unfold loop_cond. apply Z.ltb_ge. unfold remaining in Hrem. lia. }
    split; [| intros fuel _]; rewrite !while_done by exact Hc;
      [discriminate | reflexivity].
  - destruct (loop_cond s) eqn:Hc.
    2:{ split; [| intros fuel _]; rewrite !while_done by exact Hc;
          [discriminate | reflexivity]. }
    destruct (loop_body_cases s) as (c & s' & Hbody & _ & _ & Hcases).
    assert (Hnext : c = Normal CtlNext \/ c = Normal CtlContinue ->
                    (remaining s' <= n)%nat).
    { intros Hctl.
      destruct Hcases as [(Hb & _) | [(_ & Hr & _) | (Ht & _)]];
        [destruct Hctl; congruence | | destruct Hctl; congruence].
      unfold remaining in *. lia. }
    split.
    + rewrite while_S, Hc, Hbody.
      destruct c as [[] | e |]; try discriminate; try (apply IH; auto).
      destruct Hcases as [(Hb & _) | [([Hb | Hb] & _) | (Hb & _)]]; discriminate.
    + intros fuel Hfuel. destruct fuel as [| fuel]; [lia |].
      rewrite !while_S, Hc, Hbody.
      destruct c as [[] | e |]; try reflexivity; apply IH; auto; lia.
Qed.

Lemma loop_head_invariant s :
  loop_head s -> 0 <= retries s <= maxRetries /\ delay s = 1000 * 2 ^ retries s.
Proof.
  induction 1 as [s Hd Hr | s c s' Hhead [Hrange Hd] Hc Hbody Hnb].
  - rewrite Hd, Hr. unfold maxRetries. split; [lia | reflexivity].
  - unfold loop_cond in Hc. apply Z.ltb_lt in Hc.
    destruct (loop_body_cases s) as (c0 & s0 & Hbody0 & _ & _ & Hcases).
    rewrite Hbody in Hbody0. injection Hbody0 as <- <-.
    destruct Hcases as [(Hb & _) | [(_ & Hr' & Hd' & _) | (Ht & _)]];
      [congruence | | discriminate].
    rewrite Hr', Hd', Hd, Z.pow_add_r by lia. split; [lia | ring].
Qed.

Lemma sleeps_of_app l1 l2 : sleeps_of (l1 ++ l2) = sleeps_of l1 ++ sleeps_of l2.
Proof.
  induction l1 as [| [url i | ms] l1 IH]; simpl; [reflexivity | exact IH |].
  now rewrite IH.
Qed.

Lemma backoff_waits_S n :
  backoff_waits (S n) = backoff_waits n ++ [1000 * 2 ^ Z.of_nat n].
Proof. unfold backoff_waits. now rewrite seq_S, map_app. Qed.

Lemma backoff_waits_bounds n :
  (n <= 5)%nat ->
  Forall (fun ms => ms <= 16000) (backoff_waits n) /\ total (backoff_waits n) <= 31000.
Proof.
  intros Hn.
  do 6 (destruct n as [| n];
        [split; [repeat constructor; discriminate | discriminate] |]).
  lia.
Qed.

Lemma while_waits s0 fuel s :
  waits_so_far s0 s ->
  match while fuel loop_cond (loop_body endpoint init) s with
  | (OutOfFuel, _) => True
  | (_, s') => waits_at_exit s0 s'
  end.
Proof.
  intros Hs.
  apply (while_invariant (waits_so_far s0) (fun _ s' => waits_at_exit s0 s'));
    [| | exact Hs]; clear fuel s Hs.
  - intros s (Hrange & _ & new & Hl & Hsl) _.
    exists new, (Z.to_nat (retries s)). unfold maxRetries in Hrange.
    repeat split; [exact Hl | lia | exact Hsl].
  - intros s (Hrange & Hd & new & Hl & Hsl) Hc.
    unfold loop_cond in Hc. apply Z.ltb_lt in Hc. unfold maxRetries in *.
    destruct (loop_body_cases s) as (c & s' & Hbody & _ & _ & Hcases).
    rewrite Hbody.
    destruct Hcases as [(-> & _ & _ & Hl' & _)
                       | [(Hctl & Hr' & Hd' & Hl' & _) | (-> & _ & _ & _ & Hl' & _)]].
    + exists (new ++ [EvFetch apiUrl init]), (Z.to_nat (retries s)).
      rewrite Hl', Hl, <- app_assoc, sleeps_of_app, Hsl. simpl.
      rewrite app_nil_r. repeat split; lia.
    + assert (Hinv : waits_so_far s0 s').
      { unfold waits_so_far, maxRetries. rewrite Hr', Hd', Hd.
        split; [lia |]. split; [rewrite Z.pow_add_r by lia; ring |].
        exists (new ++ [EvFetch apiUrl init; EvSleep (delay s)]).
        rewrite Hl', Hl, <- app_assoc, sleeps_of_app, Hsl. split; [reflexivity |].
        replace (Z.to_nat (retries s + 1)) with (S (Z.to_nat (retries s))) by lia.
        rewrite backoff_waits_S, Z2Nat.id by lia. simpl. now rewrite Hd. }
      destruct Hctl as [-> | ->]; exact Hinv.
    + exists (new ++ [EvFetch apiUrl init]), (Z.to_nat (retries s)).
      rewrite Hl', Hl, <- app_assoc, sleeps_of_app, Hsl. simpl.
      rewrite app_nil_r. repeat split; lia.
Qed.

Lemma while_exit s0 fuel s :
  console s = console s0 ->
  retries s < maxRetries \/ response s <> None ->
  match while fuel loop_cond (loop_body endpoint init) s with
  | (OutOfFuel, _) => True
  | (c, s') => loop_exit s0 c s'
  end.
Proof.
  intros Hcon Hs.
  apply (while_invariant
           (fun s => console s = console s0 /\
                     (retries s < maxRetries \/ response s <> None))
           (loop_exit s0)); [| | split; assumption]; clear fuel s Hcon Hs.
  - intros s [Hcon [Hlt | Hresp]] Hc; split; auto.
    unfold loop_cond in Hc. apply Z.ltb_ge in Hc. lia.
  - intros s [Hcon _] _.
    destruct (loop_body_cases s) as (c & s' & Hbody & _ & (Hcon' & _) & Hcases).
    rewrite Hbody.
    destruct Hcases as [(-> & _ & _ & _ & Hresp & _)
                       | [(Hctl & _ & _ & _ & Hor & _) | (-> & _)]].
    + split; [congruence | exact Hresp].
    + destruct Hctl as [-> | ->]; (split; [congruence | exact Hor]).
    + split; [congruence | eexists; reflexivity].
Qed.

End Loop.

(** ** Two runs side by side *)

Section TwoRuns.

Variables ep1 ep2 : Endpoint.
Variable init : RequestInit.

(** The same answer to the call makes the same pass through the body. *)
Lemma loop_body_sim s1 s2 :
  locals_eq s1 s2 ->
  ep1 (calls s1) apiUrl init = ep2 (calls s2) apiUrl init ->
  exists c s1' s2' ev,
    loop_body ep1 init s1 = (c, s1') /\
    loop_body ep2 init s2 = (c, s2') /\
    locals_eq s1' s2' /\
    log s1' = log s1 ++ ev /\
    log s2' = log s2 ++ ev.
Proof.
  intros (Hresp & Hd & Hr) Hep.
  rewrite !loop_body_eq, Hep. unfold handler_result, locals_eq.
  destruct (ep2 (calls s2) apiUrl init) as [r | reason]; cbv zeta; js_simpl;
    rewrite Hd, Hr.
  - destruct (status r =? 429).
    { eexists _, _, _, _. split; [reflexivity |]. split; [reflexivity |].
      js_simpl. rewrite <- !app_assoc. repeat split; auto. }
    destruct (ok r); js_simpl.
    { eexists _, _, _, _. split; [reflexivity |]. split; [reflexivity |].
      js_simpl. repeat split; auto. }
    destruct (retries s2 + 1 >=? maxRetries).
    + eexists _, _, _, _. split; [reflexivity |]. split; [reflexivity |].
      js_simpl. repeat split; auto.
    + eexists _, _, _, _. split; [reflexivity |]. split; [reflexivity |].
      js_simpl. rewrite <- !app_assoc. repeat split; auto.
  - destruct (retries s2 + 1 >=? maxRetries).
    + eexists _, _, _, _. split; [reflexivity |]. split; [reflexivity |].
      js_simpl. repeat split; auto.
    + eexists _, _, _, _. split; [reflexivity |]. split; [reflexivity |].
      js_simpl. rewrite <- !app_assoc. repeat split; auto.
Qed.

(** The same answers to the calls still to come make the same loop. *)
Lemma while_sim fuel : forall s1 s2,
  locals_eq s1 s2 ->
  (forall i, (i < remaining s1)%nat ->
     ep1 (calls s1 + i)%nat apiUrl init = ep2 (calls s2 + i)%nat apiUrl init) ->
  exists c s1' s2' ev,
    while fuel loop_cond (loop_body ep1 init) s1 = (c, s1') /\
    while fuel loop_cond (loop_body ep2 init) s2 = (c, s2') /\
    locals_eq s1' s2' /\
    log s1' = log s1 ++ ev /\
    log s2' = log s2 ++ ev /\
    same_page s1 s1' /\ same_page s2 s2'.
Proof.
  induction fuel as [| fuel IH]; intros s1 s2 Hloc Hep.
  - simpl. assert (Hc : loop_cond s1 = loop_cond s2).
    { unfold loop_cond. destruct Hloc as (_ & _ & ->). reflexivity. }
    rewrite Hc. destruct (loop_cond s2);
      eexists _, _, _, []; rewrite !app_nil_r; repeat split; apply Hloc.
  - rewrite !while_S.
    assert (Hc : loop_cond s1 = loop_cond s2).
    { unfold loop_cond. destruct Hloc as (_ & _ & ->). reflexivity. }
    rewrite <- Hc. destruct (loop_cond s1) eqn:Hc1.
    2:{ eexists _, _, _, []; rewrite !app_nil_r; repeat split; apply Hloc. }
    assert (Hrem : (0 < remaining s1)%nat).
    { unfold loop_cond in Hc1. apply Z.ltb_lt in Hc1. unfold remaining. lia. }
    assert (Hep0 := Hep O Hrem). rewrite !Nat.add_0_r in Hep0.
    destruct (loop_body_sim s1 s2 Hloc Hep0)
      as (c & s1' & s2' & ev & Hb1 & Hb2 & Hloc' & Hl1 & Hl2).
    destruct (loop_body_cases ep1 init s1) as (c1 & t1 & Hb1' & Hcalls1 & Hpage1 & Hcases1).
    destruct (loop_body_cases ep2 init s2) as (c2 & t2 & Hb2' & Hcalls2 & Hpage2 & _).
    rewrite Hb1 in Hb1'. injection Hb1' as <- <-.
    rewrite Hb2 in Hb2'. injection Hb2' as <- <-.
    rewrite Hb1, Hb2.
    assert (Hnext : c = Normal CtlNext \/ c = Normal CtlContinue ->
      exists c' t1 t2 ev',
        while fuel loop_cond (loop_body ep1 init) s1' = (c', t1) /\
        while fuel loop_cond (loop_body ep2 init) s2' = (c', t2) /\
        locals_eq t1 t2 /\
        log t1 = log s1 ++ ev' /\ log t2 = log s2 ++ ev' /\
        same_page s1 t1 /\ same_page s2 t2).
    { intros Hctl.
      assert (Hr' : retries s1' = retries s1 + 1).
      { destruct Hcases1 as [(Hb & _) | [(_ & Hr' & _) | (Ht & _)]];
          [destruct Hctl; congruence | exact Hr' | destruct Hctl; congruence]. }
      destruct (IH s1' s2' Hloc')
        as (c' & t1 & t2 & ev' & Hw1 & Hw2 & Hloc'' & Hl1' & Hl2' & Hp1 & Hp2).
      { intros i Hi. rewrite Hcalls1, Hcalls2.
        replace (S (calls s1) + i)%nat with (calls s1 + S i)%nat by lia.
        replace (S (calls s2) + i)%nat with (calls s2 + S i)%nat by lia.
        apply Hep. unfold remaining in *. lia. }
      exists c', t1, t2, (ev ++ ev'). rewrite Hw1, Hw2.
      repeat split; try apply Hloc''.
      - now rewrite Hl1', Hl1, app_assoc.
      - now rewrite Hl2', Hl2, app_assoc.
      - apply (same_page_trans _ _ _ Hpage1 Hp1).
      - apply (same_page_trans _ _ _ Hpage1 Hp1).
      - apply (same_page_trans _ _ _ Hpage1 Hp1).
      - apply (same_page_trans _ _ _ Hpage1 Hp1).
      - apply (same_page_trans _ _ _ Hpage2 Hp2).
      - apply (same_page_trans _ _ _ Hpage2 Hp2).
      - apply (same_page_trans _ _ _ Hpage2 Hp2).
      - apply (same_page_trans _ _ _ Hpage2 Hp2). }
    destruct c as [[] | e |]; auto;
      eexists _, _, _, ev; repeat split; try apply Hloc'; try apply Hpage1;
        try apply Hpage2; assumption.
Qed.

End TwoRuns.

(** ** Scenarios *)


(** A successful first response whose description is falsy. *)
Lemma falsy_description endpoint fuel base64Data mimeType s r result :
  (5 <= fuel)%nat ->
  endpoint (calls s) apiUrl (request base64Data mimeType) = Resolves r ->
  ok r = true ->
  json r = Parsed result ->
  truthy (generatedText_of result) = false ->
  exists s',
    generateAltText endpoint fuel base64Data mimeType s = (Normal tt, s') /\
    message s' = "Could not generate alt text. Please try a different image."%string /\
    altText s' = altText s /\
    isLoading s' = false /\
    console s' = console s /\
    calls s' = S (calls s) /\
    log s' = log s ++ [EvFetch apiUrl (request base64Data mimeType)].
Proof.
  intros Hfuel Hresp Hok Hjson Hfalsy.
  destruct (retried_then_response endpoint (request base64Data mimeType)
              fuel base64Data mimeType s 0 r)
    as (s1 & Hrun & Hr1 & Hc1 & Hl1 & Hcon1 & Halt1); auto; try lia.
  { now rewrite Nat.add_0_r. }
  rewrite Hrun, after_loop_eq, Hr1, Hjson, Hfalsy.
  eexists. split; [reflexivity |].
  js_simpl. repeat split; try assumption. lia.
Qed.

Lemma conclude_log r : log (snd (conclude r)) = log (snd r).
Proof. now destruct r as [[[] | e |] s]. Qed.

Lemma extends_first s s1 s2 e l :
  log s1 = log s ++ e :: l -> extends s1 s2 ->
  exists l', log s2 = log s ++ e :: l'.
Proof.
  intros H1 [l2 H2]. exists (l ++ l2).
  now rewrite H2, H1, <- app_assoc.
Qed.

(** Whatever the endpoint answers, a pass through the loop body starts by
    issuing the network call. *)
Lemma loop_body_first_event endpoint init s :
  exists l, log (snd (loop_body endpoint init s)) = log s ++ EvFetch apiUrl init :: l.
Proof.
  rewrite loop_body_eq. unfold handler_result.
  destruct (endpoint (calls s) apiUrl init) as [r | reason]; cbv zeta.
  - destruct (status r =? 429); [| destruct (negb (ok r));
      [destruct (_ >=? _) |]]; js_simpl;
      rewrite <- ?app_assoc; eexists; reflexivity.
  - destruct (_ >=? _); js_simpl; rewrite <- ?app_assoc; eexists; reflexivity.
Qed.

(** The first thing a call does to the log is the network call. *)
Lemma generateAltText_first_event endpoint fuel base64Data mimeType s :
  (1 <= fuel)%nat ->
  exists rest,
    log (snd (generateAltText endpoint fuel base64Data mimeType s)) =
    log s ++ EvFetch apiUrl (request base64Data mimeType) :: rest.
Proof.
  intros Hfuel. destruct fuel as [| fuel]; [lia |].
  rewrite generateAltText_eq, while_S.
  change (loop_cond (loop_entry s)) with true. cbv iota.
  destruct (loop_body_first_event endpoint (request base64Data mimeType) (loop_entry s))
    as [l Hl].
  change (log (loop_entry s)) with (log s) in Hl.
  set (body := loop_body endpoint (request base64Data mimeType)) in *.
  assert (Hloop : forall s1, extends s1 (snd (while fuel loop_cond body s1))).
  { intros s1. apply (mono_while fuel loop_cond body).
    subst body. apply mono_loop_body. }
  assert (Hafter : forall s1, extends s1 (snd (conclude (after_loop s1)))).
  { intros s1. unfold extends. rewrite conclude_log. apply mono_after_loop. }
  destruct (body (loop_entry s)) as [[c | e |] s1]; simpl in Hl.
  - assert (Hnext :
      exists l', log (snd (match while fuel loop_cond body s1 with
                           | (Normal _, s2) => conclude (after_loop s2)
                           | (Throw e, s2) => conclude (Throw e, s2)
                           | (OutOfFuel, s2) => (OutOfFuel, s2)
                           end)) = log s ++ EvFetch apiUrl (request base64Data mimeType) :: l').
    { specialize (Hloop s1).
      destruct (while fuel loop_cond body s1) as [[[] | e |] s2]; simpl in Hloop.
      - eapply extends_first; [exact Hl |].
        eapply extends_trans; [exact Hloop | apply Hafter].
      - rewrite conclude_log. eapply extends_first; [exact Hl | exact Hloop].
      - eapply extends_first; [exact Hl | exact Hloop]. }
    destruct c; try exact Hnext.
    eapply extends_first; [exact Hl | apply Hafter].
  - rewrite conclude_log. now exists l.
  - now exists l.
Qed.

(** Five 429 responses in a row: the loop test fails with [response] set to
    the fifth of them, and the code after the loop goes on with it. *)
Lemma five_429_parse_last_response endpoint fuel base64Data mimeType s r5 :
  (5 <= fuel)%nat ->
  (forall i, (i < 5)%nat ->
     exists ri,
       endpoint (calls s + i)%nat apiUrl (request base64Data mimeType) = Resolves ri /\
       status ri = 429) ->
  endpoint (calls s + 4)%nat apiUrl (request base64Data mimeType) = Resolves r5 ->
  exists s5,
    generateAltText endpoint fuel base64Data mimeType s = conclude (after_loop s5) /\
    response s5 = Some r5 /\
    retries s5 = 5 /\
    calls s5 = (calls s + 5)%nat /\
    log s5 = log s ++ attempts_log (request base64Data mimeType) 1000 5.
Proof.
  intros Hfuel H429 Hlast.
  destruct (while_retried_prefix endpoint (request base64Data mimeType) 5 fuel
              (loop_entry s))
    as (s5 & Hrun & Hr & _ & Hc & Hl & Hresp & _);
    [lia | cbn; unfold maxRetries; lia | |].
  { intros i Hi. destruct (H429 i Hi) as (ri & Hri & Hst).
    unfold retried. change (calls (loop_entry s)) with (calls s).
    rewrite Hri. now left. }
  exists s5. change (retries (loop_entry s)) with 0 in Hr.
  split; [| repeat split; try assumption].
  - rewrite generateAltText_eq, Hrun, while_done; [reflexivity |].
    unfold loop_cond. rewrite Hr. reflexivity.
  - rewrite Hresp. cbn [response_at]. change (calls (loop_entry s)) with (calls s).
    now rewrite Hlast.
Qed.

(** Five failures in a row, none of them a 429: the fifth error leaves the
    loop and is reported. *)
Lemma five_hard_failures endpoint fuel base64Data mimeType s :
  (5 <= fuel)%nat ->
  (forall i, (i < 5)%nat ->
     hard_failure (endpoint (calls s + i)%nat apiUrl (request base64Data mimeType))) ->
  exists s',
    generateAltText endpoint fuel base64Data mimeType s = (Normal tt, s') /\
    calls s' = (calls s + 5)%nat /\
    log s' = log s ++ attempts_log (request base64Data mimeType) 1000 4
                   ++ [EvFetch apiUrl (request base64Data mimeType)] /\
    console s' =
      console s ++
      [error_of (endpoint (calls s + 4)%nat apiUrl (request base64Data mimeType))] /\
    message s' = "An error occurred. Please check the console for details."%string /\
    altText s' = altText s /\
    isLoading s' = false.
Proof.
  intros Hfuel Hfail.
  destruct (while_retried_prefix endpoint (request base64Data mimeType) 4 fuel
              (loop_entry s))
    as (s4 & Hrun & Hr & _ & Hc & Hl & _ & Hpage);
    [lia | cbn; unfold maxRetries; lia | |].
  { intros i Hi. assert (Hi' : (i < 5)%nat) by lia.
    specialize (Hfail i Hi'). unfold retried.
    change (calls (loop_entry s)) with (calls s).
    change (retries (loop_entry s)) with 0.
    destruct (endpoint (calls s + i)%nat apiUrl (request base64Data mimeType));
      simpl in Hfail; unfold maxRetries; [right; split; [tauto | lia] | lia]. }
  change (retries (loop_entry s)) with 0 in Hr.
  change (calls (loop_entry s)) with (calls s) in Hc.
  change (log (loop_entry s)) with (log s) in Hl.
  change (delay (loop_entry s)) with 1000 in Hl.
  destruct (loop_body_last_failure endpoint (request base64Data mimeType) s4)
    as (s5 & Hbody & _ & _ & Hc5 & Hl5 & Hpage5).
  { rewrite Hc. apply Hfail. lia. }
  { rewrite Hr. unfold maxRetries. lia. }
  rewrite Hc in Hbody.
  destruct (same_page_trans _ _ _ Hpage Hpage5) as (Hcon & _ & _ & Halt).
  eexists. split.
  - rewrite generateAltText_eq, Hrun.
    replace (fuel - 4)%nat with (S (fuel - 5)) by lia.
    rewrite while_S. unfold loop_cond at 1. rewrite Hr.
    change (4 <? maxRetries) with true. cbv iota.
    rewrite Hbody. reflexivity.
  - js_simpl. repeat split.
    + lia.
    + now rewrite Hl5, Hl, <- app_assoc.
    + now rewrite Hcon.
    + exact Halt.
Qed.

Lemma after_loop_log s : log (snd (after_loop s)) = log s.
Proof.
  rewrite after_loop_eq. destruct (response s) as [r |]; [| reflexivity].
  destruct (json r) as [v | why]; [| reflexivity].
  now destruct (truthy (generatedText_of v)).
Qed.

Lemma after_loop_returns s : fst (after_loop s) <> OutOfFuel.
Proof.
  rewrite after_loop_eq. destruct (response s) as [r |]; [| discriminate].
  destruct (json r) as [v | why]; [| discriminate].
  destruct (truthy (generatedText_of v)); discriminate.
Qed.

Lemma conclude_returns r : fst r <> OutOfFuel -> fst (conclude r) = Normal tt.
Proof. destruct r as [[[] | e |] s]; simpl; congruence. Qed.

Lemma remaining_at_entry s : remaining (loop_entry s) = 5%nat.
Proof. reflexivity. Qed.

(** With fuel for five passes the call always returns: every error is caught
    by the outer handler. *)
Lemma generateAltText_returns endpoint fuel base64Data mimeType s :
  (5 <= fuel)%nat ->
  fst (generateAltText endpoint fuel base64Data mimeType s) = Normal tt.
Proof.
  intros Hfuel. rewrite generateAltText_eq.
  destruct (while_enough_fuel endpoint (request base64Data mimeType) fuel (loop_entry s))
    as [Hret _]; [now rewrite remaining_at_entry |].
  destruct (while fuel loop_cond _ (loop_entry s)) as [[[] | e |] s1];
    simpl in Hret; [| reflexivity | congruence].
  apply conclude_returns, after_loop_returns.
Qed.

(** Nothing is added to the log once the loop is left. *)
Lemma generateAltText_log endpoint fuel base64Data mimeType s :
  log (snd (generateAltText endpoint fuel base64Data mimeType s)) =
  log (snd (while fuel loop_cond (loop_body endpoint (request base64Data mimeType))
                  (loop_entry s))).
Proof.
  rewrite generateAltText_eq.
  destruct (while fuel loop_cond _ (loop_entry s)) as [[[] | e |] s1];
    rewrite ?conclude_log; [apply after_loop_log | reflexivity | reflexivity].
Qed.

(** No call reports the "Failed to fetch from API after multiple retries."
    error: the loop is never left normally with [response] null. *)
Lemma no_response_error_unreachable endpoint fuel base64Data mimeType s :
  (5 <= fuel)%nat ->
  exists errors,
    console (snd (generateAltText endpoint fuel base64Data mimeType s)) =
      console s ++ errors /\
    ~ In (Error "Failed to fetch from API after multiple retries.") errors.
Proof.
  intros Hfuel. rewrite generateAltText_eq.
  destruct (while_enough_fuel endpoint (request base64Data mimeType) fuel (loop_entry s))
    as [Hret _]; [now rewrite remaining_at_entry |].
  assert (Hexit := while_exit endpoint (request base64Data mimeType) s fuel (loop_entry s)
                     eq_refl (or_introl eq_refl)).
  destruct (while fuel loop_cond _ (loop_entry s)) as [[[] | e |] s1];
    simpl in Hret; [| | congruence]; destruct Hexit as [Hcon Hc].
  - rewrite after_loop_eq. destruct (response s1) as [r |]; [| contradiction].
    destruct (json r) as [v | why]; [destruct (truthy (generatedText_of v)) |];
      cbn [conclude]; js_simpl; rewrite Hcon.
    + exists []. rewrite app_nil_r. split; [reflexivity | intros []].
    + exists []. rewrite app_nil_r. split; [reflexivity | intros []].
    + exists [SyntaxError why]. split; [reflexivity |].
      intros [H | []]. discriminate.
  - cbn [conclude]; js_simpl. rewrite Hcon. exists [e]. split; [reflexivity |].
    destruct Hc as [p ->]. intros [H | []].
    destruct p; simpl in H; discriminate.
Qed.

Ltac answer_cases :=
  repeat match goal with |- _ /\ _ => split end;
  intros;
  first [ solve [exfalso; (tauto || congruence || lia)]
        | repeat match goal with |- _ /\ _ => split end;
          (reflexivity || lia || congruence) ].

(** One pass through the loop body, by the kind of answer the call got. *)
Lemma loop_body_by_answer endpoint init s c s' :
  loop_body endpoint init s = (c, s') ->
  (rate_limited (endpoint (calls s) apiUrl init) ->
   c = Normal CtlContinue /\ retries s' = retries s + 1 /\ delay s' = 2 * delay s /\
   log s' = log s ++ [EvFetch apiUrl init; EvSleep (delay s)]) /\
  (hard_failure (endpoint (calls s) apiUrl init) -> retries s + 1 < maxRetries ->
   c = Normal CtlNext /\ retries s' = retries s + 1 /\ delay s' = 2 * delay s /\
   log s' = log s ++ [EvFetch apiUrl init; EvSleep (delay s)]) /\
  (hard_failure (endpoint (calls s) apiUrl init) -> maxRetries <= retries s + 1 ->
   c = Throw (error_of (endpoint (calls s) apiUrl init)) /\
   retries s' = retries s + 1 /\ delay s' = delay s /\
   log s' = log s ++ [EvFetch apiUrl init]) /\
  (~ failure (endpoint (calls s) apiUrl init) ->
   c = Normal CtlBreak /\ retries s' = retries s /\ delay s' = delay s /\
   log s' = log s ++ [EvFetch apiUrl init]).
Proof.
  rewrite loop_body_eq. unfold handler_result.
  destruct (endpoint (calls s) apiUrl init) as [r | reason]; cbv zeta;
    cbn [rate_limited hard_failure failure error_of].
  - destruct (status r =? 429) eqn:H429.
    + apply Z.eqb_eq in H429. intros H. injection H as <- <-. js_simpl.
      rewrite <- app_assoc.
      assert (Hok : ok r = false).
      { destruct (ok r) eqn:Hok; [| reflexivity].
        apply ok_not_429, Z.eqb_neq in Hok. contradiction. }
      answer_cases.
    + apply Z.eqb_neq in H429. destruct (ok r) eqn:Hok; js_simpl.
      * intros H. injection H as <- <-. js_simpl. answer_cases.
      * destruct (Z_lt_le_dec (retries s + 1) maxRetries) as [Hlt | Hge].
        -- rewrite (geb_false _ _ Hlt). intros H. injection H as <- <-. js_simpl.
           rewrite <- app_assoc. answer_cases.
        -- rewrite (geb_true _ _ Hge). intros H. injection H as <- <-. js_simpl.
           answer_cases.
  - js_simpl. destruct (Z_lt_le_dec (retries s + 1) maxRetries) as [Hlt | Hge].
    + rewrite (geb_false _ _ Hlt). intros H. injection H as <- <-. js_simpl.
      rewrite <- app_assoc. answer_cases.
    + rewrite (geb_true _ _ Hge). intros H. injection H as <- <-. js_simpl.
      answer_cases.
Qed.

Lemma hard_failure_is_failure p : hard_failure p -> failure p.
Proof. destruct p; simpl; tauto. Qed.

Lemma rate_limited_is_failure p : rate_limited p -> failure p.
Proof.
  destruct p as [r | reason]; simpl; [| tauto]. intros H.
  destruct (ok r) eqn:Hok; [| reflexivity].
  apply ok_not_429, Z.eqb_neq in Hok. contradiction.
Qed.

Lemma failure_kinds p : failure p -> rate_limited p \/ hard_failure p.
Proof.
  destruct p as [r | reason]; simpl; [| auto]. intros H.
  destruct (Z.eq_dec (status r) 429); auto.
Qed.

(** Four failed passes against [failing_endpoint] lead back to the loop
    test each time. *)
Lemma loop_head_after_four_failures :
  loop_head failing_endpoint (request "aGk=" "image/png") after_four_failures.
Proof.
  set (ep := failing_endpoint). set (req := request "aGk=" "image/png").
  pose (pass := fun s : Store => snd (loop_body ep req s)).
  assert (Hstep : forall s,
            loop_head ep req s ->
            loop_cond s = true ->
            fst (loop_body ep req s) = Normal CtlNext ->
            loop_head ep req (pass s)).
  { intros s Hs Hc Hn. apply (head_again ep req s CtlNext (pass s) Hs Hc).
    - unfold pass. rewrite <- Hn. apply surjective_pairing.
    - discriminate. }
  assert (H0 : loop_head ep req (loop_entry fresh_page))
    by (apply head_entry; reflexivity).
  change after_four_failures with (pass (pass (pass (pass (loop_entry fresh_page))))).
  repeat (apply Hstep; [| reflexivity | vm_compute; reflexivity]).
  exact H0.
Qed.

(** ** The claims *)

(** C1: five consecutive 429 responses.  The loop issues exactly five network
    calls (and five waits, the last one of 16000 ms) and then ends with
    [response] holding the fifth 429 response, so the "Failed to fetch from
    API after multiple retries." error is not raised: the body of that
    response is parsed and, holding no candidate text, the call ends with the
    "could not generate" message and an empty error console. *)
Theorem five_429_reported_as_no_description :
  generateAltText always_rate_limited 9 "aGk=" "image/png" fresh_page =
  (Normal tt,
   mkStore (Some rate_limited_response) 32000 5 5
     [EvFetch apiUrl (request "aGk=" "image/png"); EvSleep 1000;
      EvFetch apiUrl (request "aGk=" "image/png"); EvSleep 2000;
      EvFetch apiUrl (request "aGk=" "image/png"); EvSleep 4000;
      EvFetch apiUrl (request "aGk=" "image/png"); EvSleep 8000;
      EvFetch apiUrl (request "aGk=" "image/png"); EvSleep 16000]
     []
     false
     "Could not generate alt text. Please try a different image."
     (JStr "")).
Proof. vm_compute. reflexivity. Qed.



(** C3, as stated, fails on the last attempt: when the fifth attempt ends in
    a failure other than a 429, the [catch] block rethrows before it doubles
    [delay].  Here the first four calls fail and are retried, and the fifth
    failure leaves [delay] at 16000 ms. *)
Lemma fifth_failure_leaves_delay :
  ~ (forall s c s',
       loop_head failing_endpoint (request "aGk=" "image/png") s ->
       loop_cond s = true ->
       loop_body failing_endpoint (request "aGk=" "image/png") s = (c, s') ->
       failure (failing_endpoint (calls s) apiUrl (request "aGk=" "image/png")) ->
       delay s' = 2 * delay s).
Proof.
  intros Hclaim.
  set (ep := failing_endpoint) in *.
  set (req := request "aGk=" "image/png") in *.
  pose (pass := fun s : Store => snd (loop_body ep req s)).
  pose (s0 := loop_entry fresh_page).
  assert (Hstep : forall s,
            loop_head ep req s ->
            loop_cond s = true ->
            fst (loop_body ep req s) = Normal CtlNext ->
            loop_head ep req (pass s)).
  { intros s Hs Hc Hn. apply (head_again ep req s CtlNext (pass s) Hs Hc).
    - unfold pass. rewrite <- Hn. apply surjective_pairing.
    - discriminate. }
  assert (H0 : loop_head ep req s0) by (apply head_entry; reflexivity).
  assert (H1 : loop_head ep req (pass s0))
    by (apply Hstep; [exact H0 | reflexivity | vm_compute; reflexivity]).
  assert (H2 : loop_head ep req (pass (pass s0)))
    by (apply Hstep; [exact H1 | reflexivity | vm_compute; reflexivity]).
  assert (H3 : loop_head ep req (pass (pass (pass s0))))
    by (apply Hstep; [exact H2 | reflexivity | vm_compute; reflexivity]).
  assert (H4 : loop_head ep req (pass (pass (pass (pass s0)))))
    by (apply Hstep; [exact H3 | reflexivity | vm_compute; reflexivity]).
  specialize (Hclaim _ _ _ H4 eq_refl (surjective_pairing _)).
  assert (Hfail : failure (ep (calls (pass (pass (pass (pass s0))))) apiUrl req))
    by reflexivity.
  specialize (Hclaim Hfail). vm_compute in Hclaim. discriminate.
Qed.

(** C3, as the code has it: whenever the loop test is evaluated, [retries]
    is at most 5 and [delay] is 1000 ms doubled once per attempt used,
    starting from 1000 ms with no attempt used.  A pass through the body
    never takes [retries] above 5, and a pass whose call fails adds one to
    it.  After a 429 the pass waits [delay], doubles it and continues; so
    does a pass that failed otherwise (another non-success status, a
    rejected call) while attempts remain.  A pass that failed otherwise and
    used up the fifth attempt rethrows the error at once, without a wait and
    with [delay] as it was.  A pass whose call succeeds changes neither
    variable and leaves the loop. *)
Theorem retry_state_invariant :
  forall endpoint init,
    (forall s0,
       loop_head endpoint init (loop_entry s0) /\
       retries (loop_entry s0) = 0 /\ delay (loop_entry s0) = 1000) /\
    (forall s,
       loop_head endpoint init s ->
       retries s <= 5 /\
       delay s = 1000 * 2 ^ retries s /\
       (loop_cond s = true ->
        forall c s',
          loop_body endpoint init s = (c, s') ->
          retries s' <= 5 /\
          (failure (endpoint (calls s) apiUrl init) ->
           retries s' = retries s + 1) /\
          (rate_limited (endpoint (calls s) apiUrl init) ->
           c = Normal CtlContinue /\
           delay s' = 2 * delay s /\
           log s' = log s ++ [EvFetch apiUrl init; EvSleep (delay s)] /\
           loop_head endpoint init s') /\
          (hard_failure (endpoint (calls s) apiUrl init) ->
           retries s + 1 < maxRetries ->
           c = Normal CtlNext /\
           delay s' = 2 * delay s /\
           log s' = log s ++ [EvFetch apiUrl init; EvSleep (delay s)] /\
           loop_head endpoint init s') /\
          (hard_failure (endpoint (calls s) apiUrl init) ->
           maxRetries <= retries s + 1 ->
           c = Throw (error_of (endpoint (calls s) apiUrl init)) /\
           delay s' = delay s /\
           retries s' = 5 /\
           log s' = log s ++ [EvFetch apiUrl init]) /\
          (~ failure (endpoint (calls s) apiUrl init) ->
           c = Normal CtlBreak /\ retries s' = retries s /\ delay s' = delay s))).
Proof.
  intros endpoint init. split.
  - intros s0. split; [now apply head_entry | split; reflexivity].
  - intros s Hhead.
    destruct (loop_head_invariant endpoint init s Hhead) as [Hrange Hd].
    unfold maxRetries in Hrange.
    split; [lia |]. split; [exact Hd |].
    intros Hc c s' Hbody.
    assert (Hlt : retries s < 5) by (apply Z.ltb_lt; exact Hc).
    destruct (loop_body_by_answer endpoint init s c s' Hbody)
      as (H429 & Hretry & Hlast & Hok).
    unfold maxRetries in *.
    assert (Hinc : failure (endpoint (calls s) apiUrl init) ->
                   retries s' = retries s + 1).
    { intros Hf. destruct (failure_kinds _ Hf) as [Hk | Hk].
      - now destruct (H429 Hk) as (_ & Hr & _).
      - destruct (Z_lt_le_dec (retries s + 1) 5) as [Hl | Hg].
        + now destruct (Hretry Hk Hl) as (_ & Hr & _).
        + now destruct (Hlast Hk Hg) as (_ & Hr & _). }
    split.
    { destruct (endpoint (calls s) apiUrl init) as [r | reason] eqn:Hep.
      - destruct (ok r) eqn:Hokr.
        + destruct Hok as (_ & Hr & _); [simpl; congruence | lia].
        + rewrite Hinc by exact Hokr. lia.
      - rewrite Hinc by exact I. lia. }
    split; [exact Hinc |].
    split; [| split; [| split]].
    + intros Hk. destruct (H429 Hk) as (-> & Hr & Hd' & Hl).
      repeat split; try assumption.
      eapply head_again; eauto; discriminate.
    + intros Hk Hl. destruct (Hretry Hk Hl) as (-> & Hr & Hd' & Hl').
      repeat split; try assumption.
      eapply head_again; eauto; discriminate.
    + intros Hk Hg. destruct (Hlast Hk Hg) as (-> & Hr & Hd' & Hl').
      repeat split; try assumption. lia.
    + intros Hnf. destruct (Hok Hnf) as (-> & Hr & Hd' & _). repeat split; assumption.
Qed.

Lemma retry_state_invariant_witness :
  (fst (loop_body always_rate_limited (request "aGk=" "image/png")
                  (loop_entry fresh_page)) = Normal CtlContinue /\
   delay (snd (loop_body always_rate_limited (request "aGk=" "image/png")
                         (loop_entry fresh_page)))
     = 2 * delay (loop_entry fresh_page))
  /\
  (fst (loop_body failing_endpoint (request "aGk=" "image/png") after_four_failures)
     = Throw (error_of (failing_endpoint (calls after_four_failures) apiUrl
                                         (request "aGk=" "image/png"))) /\
   delay (snd (loop_body failing_endpoint (request "aGk=" "image/png")
                         after_four_failures))
     = delay after_four_failures /\
   retries (snd (loop_body failing_endpoint (request "aGk=" "image/png")
                           after_four_failures)) = 5).
Proof.
  split.
  - destruct (proj2 (retry_state_invariant always_rate_limited
                       (request "aGk=" "image/png"))
                    (loop_entry fresh_page)) as (_ & _ & H).
    { apply head_entry; reflexivity. }
    destruct (H eq_refl _ _ (surjective_pairing _)) as (_ & _ & H429 & _).
    destruct H429 as (Hc & Hd & _); [reflexivity |]. split; assumption.
  - destruct (proj2 (retry_state_invariant failing_endpoint
                       (request "aGk=" "image/png"))
                    after_four_failures loop_head_after_four_failures)
      as (_ & _ & H).
    destruct (H eq_refl _ _ (surjective_pairing _)) as (_ & _ & _ & _ & Hlast & _).
    destruct Hlast as (Hc & Hd & Hr & _);
      [split; [reflexivity | discriminate] | vm_compute; discriminate |].
    repeat split; assumption.
Defined.

(** C4: a response with a non-success status other than 429 and a rejected
    network call go through the same [catch] block: either one adds one to
    [retries] and, while attempts remain, waits [delay] and doubles it, and
    otherwise rethrows.  Hence any five such failures in a row, of either
    kind in any order, use up the budget: exactly five calls, waits of 1000,
    2000, 4000 and 8000 ms between them, and the fifth error reported. *)
Theorem failures_share_one_budget :
  (forall endpoint init s,
     hard_failure (endpoint (calls s) apiUrl init) ->
     exists c s',
       loop_body endpoint init s = (c, s') /\
       retries s' = retries s + 1 /\
       calls s' = S (calls s) /\
       ((retries s + 1 < maxRetries /\ c = Normal CtlNext /\
         delay s' = delay s * 2 /\
         log s' = log s ++ [EvFetch apiUrl init; EvSleep (delay s)])
        \/
        (maxRetries <= retries s + 1 /\
         c = Throw (error_of (endpoint (calls s) apiUrl init)) /\
         delay s' = delay s /\
         log s' = log s ++ [EvFetch apiUrl init])))
  /\
  (forall endpoint fuel base64Data mimeType s,
     (5 <= fuel)%nat ->
     (forall i, (i < 5)%nat ->
        hard_failure (endpoint (calls s + i)%nat apiUrl (request base64Data mimeType))) ->
     exists s',
       generateAltText endpoint fuel base64Data mimeType s = (Normal tt, s') /\
       calls s' = (calls s + 5)%nat /\
       log s' = log s ++ attempts_log (request base64Data mimeType) 1000 4
                      ++ [EvFetch apiUrl (request base64Data mimeType)] /\
       console s' =
         console s ++
         [error_of (endpoint (calls s + 4)%nat apiUrl (request base64Data mimeType))] /\
       message s' = "An error occurred. Please check the console for details."%string).
Proof.
  split.
  - intros endpoint init s Hfail.
    rewrite loop_body_eq. unfold handler_result.
    destruct (endpoint (calls s) apiUrl init) as [r | reason]; cbv zeta;
      simpl in Hfail |- *.
    + destruct Hfail as [Hok H429]. apply Z.eqb_neq in H429.
      rewrite H429, Hok. js_simpl.
      destruct (Z_lt_le_dec (retries s + 1) maxRetries) as [Hlt | Hge].
      * rewrite (geb_false _ _ Hlt). eexists _, _. split; [reflexivity |].
        js_simpl. rewrite <- app_assoc. repeat split. left. repeat split. exact Hlt.
      * rewrite (geb_true _ _ Hge). eexists _, _. split; [reflexivity |].
        js_simpl. repeat split. right. repeat split. exact Hge.
    + js_simpl.
      destruct (Z_lt_le_dec (retries s + 1) maxRetries) as [Hlt | Hge].
      * rewrite (geb_false _ _ Hlt). eexists _, _. split; [reflexivity |].
        js_simpl. rewrite <- app_assoc. repeat split. left. repeat split. exact Hlt.
      * rewrite (geb_true _ _ Hge). eexists _, _. split; [reflexivity |].
        js_simpl. repeat split. right. repeat split. exact Hge.
  - intros endpoint fuel base64Data mimeType s Hfuel Hfail.
    destruct (five_hard_failures endpoint fuel base64Data mimeType s Hfuel Hfail)
      as (s' & Hrun & Hc & Hl & Hcon & Hmsg & _).
    exists s'. repeat split; assumption.
Qed.

Lemma failures_share_one_budget_witness :
  exists s',
    generateAltText failing_endpoint 5 "aGk=" "image/png" fresh_page = (Normal tt, s') /\
    calls s' = (calls fresh_page + 5)%nat /\
    log s' = log fresh_page ++ attempts_log (request "aGk=" "image/png") 1000 4
                   ++ [EvFetch apiUrl (request "aGk=" "image/png")] /\
    console s' =
      console fresh_page ++
      [error_of (failing_endpoint (calls fresh_page + 4)%nat apiUrl
                                  (request "aGk=" "image/png"))] /\
    message s' = "An error occurred. Please check the console for details."%string.
Proof.
  apply (proj2 failures_share_one_budget failing_endpoint 5%nat
               "aGk="%string "image/png"%string fresh_page).
  - lia.
  - intros i Hi.
    do 5 (destruct i as [| i]; [simpl; try split; (reflexivity || discriminate) |]).
    lia.
Defined.

(** C5: when the first response has a success status and its body holds no
    text at candidates[0].content.parts[0].text, or an empty one, the call
    ends with the "could not generate" message after exactly one network
    call and no wait; the alt text is left as it was and nothing is logged
    as an error. *)
Theorem empty_description_not_retried :
  forall endpoint fuel base64Data mimeType s r result,
    (5 <= fuel)%nat ->
    endpoint (calls s) apiUrl (request base64Data mimeType) = Resolves r ->
    ok r = true ->
    json r = Parsed result ->
    generatedText_of result = JUndefined \/ generatedText_of result = JStr "" ->
    exists s',
      generateAltText endpoint fuel base64Data mimeType s = (Normal tt, s') /\
      message s' = "Could not generate alt text. Please try a different image."%string /\
      altText s' = altText s /\
      isLoading s' = false /\
      console s' = console s /\
      calls s' = S (calls s) /\
      log s' = log s ++ [EvFetch apiUrl (request base64Data mimeType)].
Proof.
  intros endpoint fuel base64Data mimeType s r result Hfuel Hresp Hok Hjson Hempty.
  apply (falsy_description endpoint fuel base64Data mimeType s r result); auto.
  destruct Hempty as [H | H]; rewrite H; reflexivity.
Qed.

Lemma empty_description_not_retried_witness :
  exists s',
    generateAltText (fun _ _ _ => Resolves (ok_response (JStr ""))) 5
                    "aGk=" "image/png" fresh_page = (Normal tt, s') /\
    message s' = "Could not generate alt text. Please try a different image."%string /\
    altText s' = altText fresh_page /\
    isLoading s' = false /\
    console s' = console fresh_page /\
    calls s' = S (calls fresh_page) /\
    log s' = log fresh_page ++ [EvFetch apiUrl (request "aGk=" "image/png")].
Proof.
  apply (empty_description_not_retried
           (fun _ _ _ => Resolves (ok_response (JStr ""))) 5
           "aGk=" "image/png" fresh_page (ok_response (JStr ""))
           (JObj [("candidates"%string,
                   JArr [JObj [("content"%string,
                               JObj [("parts"%string,
                                      JArr [JObj [("text"%string, JStr "")]])])]])])).
  - lia.
  - reflexivity.
  - reflexivity.
  - reflexivity.
  - right. reflexivity.
Defined.

(** C6: five responses with status 429 use up the attempts with no
    successful call and no error thrown out of the loop, and yet the
    "Failed to fetch from API after multiple retries." error is not
    reported: the loop is left with [retries] at 5 and [response] holding
    the fifth 429 response, so the guard after the loop does not fire, and
    whatever the call adds to the console is not that error. *)
Theorem exhausted_by_429_reports_no_failure :
  forall endpoint fuel base64Data mimeType s,
    (5 <= fuel)%nat ->
    (forall i, (i < 5)%nat ->
       exists ri,
         endpoint (calls s + i)%nat apiUrl (request base64Data mimeType) = Resolves ri /\
         status ri = 429) ->
    exists s' r5 errors,
      generateAltText endpoint fuel base64Data mimeType s = (Normal tt, s') /\
      calls s' = (calls s + 5)%nat /\
      retries s' = 5 /\
      response s' = Some r5 /\
      status r5 = 429 /\
      console s' = console s ++ errors /\
      ~ In (Error "Failed to fetch from API after multiple retries.") errors.
Proof.
  intros endpoint fuel base64Data mimeType s Hfuel H429.
  set (init := request base64Data mimeType) in *.
  destruct (H429 4%nat) as (r5 & Hlast & Hst); [lia |].
  destruct (while_retried_prefix endpoint init 5 fuel (loop_entry s))
    as (s5 & Hrun & Hr & _ & Hc & _ & Hresp & Hpage);
    [lia | cbn; unfold maxRetries; lia | |].
  { intros i Hi. destruct (H429 i Hi) as (ri & Hri & Hsti).
    unfold retried. change (calls (loop_entry s)) with (calls s).
    rewrite Hri. now left. }
  change (retries (loop_entry s)) with 0 in Hr.
  change (calls (loop_entry s)) with (calls s) in Hc.
  destruct Hpage as (Hcon & _).
  change (console (loop_entry s)) with (console s) in Hcon.
  assert (Hr5 : response s5 = Some r5).
  { rewrite Hresp. cbn [response_at]. change (calls (loop_entry s)) with (calls s).
    fold init. now rewrite Hlast. }
  rewrite generateAltText_eq. fold init.
  rewrite Hrun, while_done by (unfold loop_cond; rewrite Hr; reflexivity).
  rewrite after_loop_eq, Hr5.
  destruct (json r5) as [result | why].
  - destruct (truthy (generatedText_of result));
      (eexists _, r5, []; split; [reflexivity |]); js_simpl;
      rewrite app_nil_r; repeat split; try assumption; intros [].
  - eexists _, r5, [SyntaxError why]. split; [reflexivity |]. js_simpl.
    rewrite Hcon. repeat split; try assumption.
    intros [H | []]. discriminate.
Qed.

Lemma exhausted_by_429_reports_no_failure_witness :
  exists s' r5 errors,
    generateAltText always_rate_limited 5 "aGk=" "image/png" fresh_page
      = (Normal tt, s') /\
    calls s' = (calls fresh_page + 5)%nat /\
    retries s' = 5 /\
    response s' = Some r5 /\
    status r5 = 429 /\
    console s' = console fresh_page ++ errors /\
    ~ In (Error "Failed to fetch from API after multiple retries.") errors.
Proof.
  apply (exhausted_by_429_reports_no_failure always_rate_limited 5
           "aGk=" "image/png" fresh_page).
  - lia.
  - intros i Hi. exists rate_limited_response. split; reflexivity.
Defined.



(** C8: whatever the payload, the empty one included, the first thing a call
    does is the network call; the request body is the serialised envelope,
    and the envelope holds the MIME type and the base64 data as they were
    passed in. *)
Theorem payload_passed_through :
  forall endpoint fuel base64Data mimeType s,
    (5 <= fuel)%nat ->
    (exists rest,
       log (snd (generateAltText endpoint fuel base64Data mimeType s)) =
       log s ++ EvFetch apiUrl (request base64Data mimeType) :: rest) /\
    body (request base64Data mimeType) = JSON_stringify (payload base64Data mimeType) /\
    opt_member (inlineData_of (payload base64Data mimeType)) "data" = JStr base64Data /\
    opt_member (inlineData_of (payload base64Data mimeType)) "mimeType" = JStr mimeType.
Proof.
  intros endpoint fuel base64Data mimeType s Hfuel.
  split; [apply generateAltText_first_event; lia |].
  repeat split.
Qed.

Lemma payload_passed_through_witness :
  (exists rest,
     log (snd (generateAltText always_rate_limited 5 "" "image/png" fresh_page)) =
     log fresh_page ++ EvFetch apiUrl (request "" "image/png") :: rest) /\
  body (request "" "image/png") = JSON_stringify (payload "" "image/png") /\
  opt_member (inlineData_of (payload "" "image/png")) "data" = JStr "" /\
  opt_member (inlineData_of (payload "" "image/png")) "mimeType" = JStr "image/png".
Proof.
  apply (payload_passed_through always_rate_limited 5 "" "image/png" fresh_page).
  lia.
Defined.

(** C9: two calls with the same payload, on pages with whatever history,
    whose network calls are answered alike, end alike: the same message and
    loading flag, the same errors added to the console, the same network
    calls and waits added to the log, and the same alt text whenever the
    call succeeded (or whenever the alt text was the same before). *)
Theorem outcome_deterministic :
  forall ep1 ep2 fuel1 fuel2 base64Data mimeType s1 s2,
    (5 <= fuel1)%nat -> (5 <= fuel2)%nat ->
    (forall i, (i < 5)%nat ->
       ep1 (calls s1 + i)%nat apiUrl (request base64Data mimeType) =
       ep2 (calls s2 + i)%nat apiUrl (request base64Data mimeType)) ->
    let r1 := generateAltText ep1 fuel1 base64Data mimeType s1 in
    let r2 := generateAltText ep2 fuel2 base64Data mimeType s2 in
    fst r1 = fst r2 /\
    message (snd r1) = message (snd r2) /\
    isLoading (snd r1) = isLoading (snd r2) /\
    (exists errors,
       console (snd r1) = console s1 ++ errors /\
       console (snd r2) = console s2 ++ errors) /\
    (exists events,
       log (snd r1) = log s1 ++ events /\
       log (snd r2) = log s2 ++ events) /\
    (message (snd r1) = "Alt text generated successfully!"%string ->
     altText (snd r1) = altText (snd r2)) /\
    (altText s1 = altText s2 -> altText (snd r1) = altText (snd r2)).
Proof.
  intros ep1 ep2 fuel1 fuel2 base64Data mimeType s1 s2 Hf1 Hf2 Hep r1 r2.
  subst r1 r2. rewrite !generateAltText_eq.
  set (init := request base64Data mimeType) in *.
  destruct (while_enough_fuel ep1 init 5 (loop_entry s1)) as [_ H1];
    [now rewrite remaining_at_entry |].
  destruct (while_enough_fuel ep2 init 5 (loop_entry s2)) as [_ H2];
    [now rewrite remaining_at_entry |].
  rewrite (H1 fuel1 Hf1), (H2 fuel2 Hf2). clear H1 H2.
  destruct (while_sim ep1 ep2 init 5 (loop_entry s1) (loop_entry s2))
    as (c & t1 & t2 & ev & Hw1 & Hw2 & (Hresp & _) & Hl1 & Hl2 & Hp1 & Hp2).
  { repeat split. }
  { intros i Hi. rewrite remaining_at_entry in Hi. apply Hep, Hi. }
  rewrite Hw1, Hw2.
  change (log (loop_entry s1)) with (log s1) in Hl1.
  change (log (loop_entry s2)) with (log s2) in Hl2.
  destruct Hp1 as (Hc1 & Hld1 & Hm1 & Ha1). destruct Hp2 as (Hc2 & Hld2 & Hm2 & Ha2).
  cbn [loop_entry console isLoading message altText with_retries with_delay
       with_response with_message with_isLoading] in Hc1, Hld1, Hm1, Ha1, Hc2, Hld2, Hm2, Ha2.
  destruct c as [[] | e |].
  - rewrite !after_loop_eq, <- Hresp.
    destruct (response t1) as [r |].
    + destruct (json r) as [v | why].
      * destruct (truthy (generatedText_of v)); js_simpl; cbn [conclude];
          js_simpl; (split; [reflexivity |]); (split; [reflexivity |]);
          (split; [reflexivity |]);
          (split; [exists []; rewrite !app_nil_r; split; assumption |]);
          (split; [exists ev; split; assumption |]);
          split; try reflexivity; try discriminate; congruence.
      * cbn [conclude]; js_simpl. repeat split; try discriminate.
        -- exists [SyntaxError why]. rewrite Hc1, Hc2. split; reflexivity.
        -- exists ev; split; assumption.
        -- congruence.
    + cbn [conclude]; js_simpl. repeat split; try discriminate.
      * eexists [_]. rewrite Hc1, Hc2. split; reflexivity.
      * exists ev; split; assumption.
      * congruence.
  - cbn [conclude]; js_simpl. repeat split; try discriminate.
    + exists [e]. rewrite Hc1, Hc2. split; reflexivity.
    + exists ev; split; assumption.
    + congruence.
  - js_simpl. rewrite Hm1, Hm2, Hld1, Hld2, Hc1, Hc2. repeat split; try discriminate.
    + exists []. rewrite !app_nil_r. split; reflexivity.
    + exists ev; split; assumption.
    + congruence.
Qed.

Lemma outcome_deterministic_witness :
  let r1 := generateAltText (throttling_endpoint 2 "A brown bear.") 5
                            "aGk=" "image/png" fresh_page in
  let r2 := generateAltText (replayed 5 (throttling_endpoint 2 "A brown bear.")) 8
                            "aGk=" "image/png" used_page in
  fst r1 = fst r2 /\
  message (snd r1) = message (snd r2) /\
  isLoading (snd r1) = isLoading (snd r2) /\
  (exists errors,
     console (snd r1) = console fresh_page ++ errors /\
     console (snd r2) = console used_page ++ errors) /\
  (exists events,
     log (snd r1) = log fresh_page ++ events /\
     log (snd r2) = log used_page ++ events) /\
  (message (snd r1) = "Alt text generated successfully!"%string ->
   altText (snd r1) = altText (snd r2)) /\
  (altText fresh_page = altText used_page -> altText (snd r1) = altText (snd r2)).
Proof.
  apply (outcome_deterministic
           (throttling_endpoint 2 "A brown bear.")
           (replayed 5 (throttling_endpoint 2 "A brown bear."))
           5 8 "aGk=" "image/png" fresh_page used_page).
  - lia.
  - lia.
  - intros i Hi. do 5 (destruct i as [| i]; [reflexivity |]). lia.
Defined.

(** C10: every call returns, and the waits it recorded are the first [n]
    backoff delays 1000, 2000, 4000, ... for some [n <= 5]; so there are at
    most five of them, none longer than 16000 ms, and together they last at
    most 31000 ms. *)
Theorem backoff_bounded :
  forall endpoint fuel base64Data mimeType s,
    (5 <= fuel)%nat ->
    fst (generateAltText endpoint fuel base64Data mimeType s) = Normal tt /\
    exists new n,
      log (snd (generateAltText endpoint fuel base64Data mimeType s)) = log s ++ new /\
      (n <= 5)%nat /\
      sleeps_of new = backoff_waits n /\
      List.length (sleeps_of new) = n /\
      Forall (fun ms => ms <= 16000) (sleeps_of new) /\
      total (sleeps_of new) <= 31000.
Proof.
  intros endpoint fuel base64Data mimeType s Hfuel.
  split; [now apply generateAltText_returns |].
  rewrite generateAltText_log.
  destruct (while_enough_fuel endpoint (request base64Data mimeType) fuel (loop_entry s))
    as [Hret _]; [now rewrite remaining_at_entry |].
  assert (Hw := while_waits endpoint (request base64Data mimeType) s fuel (loop_entry s)).
  destruct (while fuel loop_cond _ (loop_entry s)) as [c s1].
  assert (Hexit : waits_at_exit s s1).
  { destruct c as [[] | e |]; simpl in Hret; try congruence; apply Hw;
      (split; [cbn; unfold maxRetries; lia |]; split; [reflexivity |];
       exists []; split; [symmetry; apply app_nil_r | reflexivity]). }
  destruct Hexit as (new & n & Hl & Hn & Hsl).
  exists new, n. destruct (backoff_waits_bounds n Hn) as [Hall Htot].
  rewrite Hsl. repeat split; auto.
  unfold backoff_waits. now rewrite length_map, length_seq.
Qed.

Lemma backoff_bounded_witness :
  fst (generateAltText always_rate_limited 5 "aGk=" "image/png" fresh_page) = Normal tt /\
  exists new n,
    log (snd (generateAltText always_rate_limited 5 "aGk=" "image/png" fresh_page))
      = log fresh_page ++ new /\
    (n <= 5)%nat /\
    sleeps_of new = backoff_waits n /\
    List.length (sleeps_of new) = n /\
    Forall (fun ms => ms <= 16000) (sleeps_of new) /\
    total (sleeps_of new) <= 31000.
Proof.
  apply (backoff_bounded always_rate_limited 5 "aGk=" "image/png" fresh_page).
  lia.
Defined.

(** ** Beyond the claims: the call *)

Section CallFacts.

Variable endpoint : Endpoint.
Variable init : RequestInit.

(** The loop writes neither the console nor the React state. *)
Lemma while_keeps_page s0 fuel s :
  same_page s0 s ->
  match while fuel loop_cond (loop_body endpoint init) s with
  | (OutOfFuel, _) => True
  | (_, s') => same_page s0 s'
  end.
Proof.
  intros Hs.
  apply (while_invariant (same_page s0) (fun _ s' => same_page s0 s'));
    [| | exact Hs]; clear fuel s Hs.
  - auto.
  - intros s Hs _.
    destruct (loop_body_cases endpoint init s) as (c & s' & Hbody & _ & Hpage & _).
    rewrite Hbody. pose proof (same_page_trans _ _ _ Hs Hpage) as H.
    destruct c as [[] | e |]; auto.
Qed.

(** The log grows by whole attempts. *)
Lemma while_call_shape s0 fuel s :
  attempts_made init s0 s ->
  match while fuel loop_cond (loop_body endpoint init) s with
  | (OutOfFuel, _) => True
  | (_, s') => call_shape init s0 s'
  end.
Proof.
  intros Hs.
  apply (while_invariant (attempts_made init s0) (fun _ s' => call_shape init s0 s'));
    [| | exact Hs]; clear fuel s Hs.
  - intros s (n & Hn & Hr & _ & Hl & Hc) Hcond.
    unfold loop_cond in Hcond. apply Z.ltb_ge in Hcond. unfold maxRetries in Hcond.
    assert (n = 5%nat) by lia. subst n. right. split; assumption.
  - intros s (n & Hn & Hr & Hd & Hl & Hc) Hcond.
    unfold loop_cond in Hcond. apply Z.ltb_lt in Hcond. unfold maxRetries in Hcond.
    destruct (loop_body_cases endpoint init s) as (c & s' & Hbody & Hcalls & _ & Hcases).
    rewrite Hbody.
    destruct Hcases as [(-> & _ & _ & Hl' & _)
                       | [(Hctl & Hr' & Hd' & Hl' & _) | (-> & _ & _ & _ & Hl' & _)]].
    + left. exists n. split; [lia |]. split; [now rewrite Hl', Hl, <- app_assoc | lia].
    + assert (Hinv : attempts_made init s0 s').
      { exists (S n). split; [lia |]. split; [lia |].
        split; [rewrite Hd', Hd, Nat2Z.inj_succ, Z.pow_succ_r by lia; ring |].
        split; [| lia].
        now rewrite Hl', Hl, Hd, attempts_log_S, <- app_assoc. }
      destruct Hctl as [-> | ->]; exact Hinv.
    + left. exists n. split; [lia |]. split; [now rewrite Hl', Hl, <- app_assoc | lia].
Qed.

End CallFacts.

Lemma attempts_made_at_entry init s : attempts_made init s (loop_entry s).
Proof.
  exists 0%nat. unfold attempts_log. simpl. rewrite app_nil_r, Nat.add_0_r.
  repeat split. lia.
Qed.

Lemma generateAltText_js_string endpoint fuel base64Data mimeType :
  generateAltText_js endpoint fuel (JStr base64Data) mimeType =
  generateAltText endpoint fuel base64Data mimeType.
Proof. reflexivity. Qed.

Lemma generateAltText_js_eq endpoint fuel base64Data mimeType s :
  generateAltText_js endpoint fuel base64Data mimeType s =
  match while fuel loop_cond (loop_body endpoint (request_js base64Data mimeType))
              (loop_entry s) with
  | (Normal _, s1) => conclude (after_loop s1)
  | (Throw e, s1) => conclude (Throw e, s1)
  | (OutOfFuel, s1) => (OutOfFuel, s1)
  end.
Proof.
  unfold generateAltText_js, retry_loop, loop_entry. js_simpl.
  match goal with
  | |- context [while ?f ?c ?b ?x] => destruct (while f c b x) as [[[] | e |] s1]
  end; try reflexivity.
  destruct (after_loop s1) as [[[] | e |] s2]; reflexivity.
Qed.

(** How any call ends, whatever was passed as [base64Data]. *)
Lemma generateAltText_js_outcome endpoint fuel base64Data mimeType s :
  (5 <= fuel)%nat ->
  exists s',
    generateAltText_js endpoint fuel base64Data mimeType s = (Normal tt, s') /\
    isLoading s' = false /\
    call_outcome s s' /\
    call_shape (request_js base64Data mimeType) s s'.
Proof.
  intros Hfuel. rewrite generateAltText_js_eq.
  set (init := request_js base64Data mimeType).
  destruct (while_enough_fuel endpoint init fuel (loop_entry s))
    as [Hret _]; [now rewrite remaining_at_entry |].
  assert (Hpage := while_keeps_page endpoint init (loop_entry s) fuel (loop_entry s)
                     (same_page_refl _)).
  assert (Hshape := while_call_shape endpoint init s fuel (loop_entry s)
                      (attempts_made_at_entry init s)).
  destruct (while fuel loop_cond _ (loop_entry s)) as [c s1].
  assert (Hp : same_page (loop_entry s) s1 /\ call_shape init s s1).
  { destruct c as [[] | e |]; simpl in Hret; try congruence; split; assumption. }
  clear Hpage Hshape. destruct Hp as [(Hcon & _ & _ & Halt) Hshape].
  change (console (loop_entry s)) with (console s) in Hcon.
  change (altText (loop_entry s)) with (altText s) in Halt.
  destruct c as [[] | e |]; simpl in Hret; try congruence.
  - rewrite after_loop_eq. destruct (response s1) as [r |].
    + destruct (json r) as [v | why].
      * destruct (truthy (generatedText_of v)) eqn:Ht; cbn [conclude]; js_simpl;
          eexists; (split; [reflexivity |]); js_simpl; (split; [reflexivity |]);
          (split; [| exact Hshape]).
        -- left. split; [reflexivity |]. split; assumption.
        -- right; left. split; [reflexivity |]. split; assumption.
      * cbn [conclude]; js_simpl. eexists. split; [reflexivity |]. js_simpl.
        split; [reflexivity |]. split; [| exact Hshape].
        right; right. rewrite Hcon. split; [reflexivity |]. split; [exact Halt |].
        eexists; reflexivity.
    + cbn [conclude]; js_simpl. eexists. split; [reflexivity |]. js_simpl.
      split; [reflexivity |]. split; [| exact Hshape].
      right; right. rewrite Hcon. split; [reflexivity |]. split; [exact Halt |].
        eexists; reflexivity.
  - cbn [conclude]; js_simpl. eexists. split; [reflexivity |]. js_simpl.
    split; [reflexivity |]. split; [| exact Hshape].
    right; right. rewrite Hcon. split; [reflexivity |]. split; [exact Halt |].
        eexists; reflexivity.
Qed.

(** Any failure is retried while attempts remain. *)
Lemma failure_retried endpoint init s i :
  failure (endpoint (calls s + i)%nat apiUrl init) ->
  retries s + Z.of_nat i + 1 < maxRetries ->
  retried endpoint init s i.
Proof.
  unfold retried, failure.
  destruct (endpoint (calls s + i)%nat apiUrl init); auto.
Qed.

(** X1: whatever the endpoint answers, a call makes between one and five
    network calls, all to the same URL with the same request; every call but
    the last is followed by its backoff wait, and a wait follows the last
    call only when five calls were made. *)
Theorem call_log_shape :
  forall endpoint fuel base64Data mimeType s,
    (5 <= fuel)%nat ->
    let s' := snd (generateAltText endpoint fuel base64Data mimeType s) in
    let init := request base64Data mimeType in
    (calls s < calls s' <= calls s + 5)%nat /\
    ((exists n,
        (n <= 4)%nat /\
        log s' = log s ++ attempts_log init 1000 n ++ [EvFetch apiUrl init] /\
        calls s' = (calls s + n + 1)%nat)
     \/
     (log s' = log s ++ attempts_log init 1000 5 /\ calls s' = (calls s + 5)%nat)).
Proof.
  intros endpoint fuel base64Data mimeType s Hfuel s' init. subst s' init.
  rewrite <- generateAltText_js_string.
  destruct (generateAltText_js_outcome endpoint fuel (JStr base64Data) mimeType s Hfuel)
    as (s' & Hrun & _ & _ & Hshape).
  rewrite Hrun. cbn [snd]. split; [| exact Hshape].
  destruct Hshape as [(n & Hn & _ & Hc) | (_ & Hc)]; lia.
Qed.

Lemma call_log_shape_witness :
  let s' := snd (generateAltText (throttling_endpoint 2 "A brown bear.") 5
                                 "aGk=" "image/png" fresh_page) in
  let init := request "aGk=" "image/png" in
  (calls fresh_page < calls s' <= calls fresh_page + 5)%nat /\
  ((exists n,
      (n <= 4)%nat /\
      log s' = log fresh_page ++ attempts_log init 1000 n ++ [EvFetch apiUrl init] /\
      calls s' = (calls fresh_page + n + 1)%nat)
   \/
   (log s' = log fresh_page ++ attempts_log init 1000 5 /\
    calls s' = (calls fresh_page + 5)%nat)).
Proof.
  apply (call_log_shape (throttling_endpoint 2 "A brown bear.") 5
                        "aGk=" "image/png" fresh_page).
  lia.
Defined.

(** X2: every call returns with the loading flag off and one of three
    messages: the success message, with a truthy alt text and nothing
    logged; the "could not generate" message, with the alt text untouched
    and nothing logged; or the error message, with the alt text untouched
    and exactly one error added to the console. *)
Theorem call_ends_in_one_of_three :
  forall endpoint fuel base64Data mimeType s,
    (5 <= fuel)%nat ->
    exists s',
      generateAltText endpoint fuel base64Data mimeType s = (Normal tt, s') /\
      isLoading s' = false /\
      ((message s' = "Alt text generated successfully!"%string /\
        truthy (altText s') = true /\ console s' = console s)
       \/
       (message s' = "Could not generate alt text. Please try a different image."%string /\
        altText s' = altText s /\ console s' = console s)
       \/
       (message s' = "An error occurred. Please check the console for details."%string /\
        altText s' = altText s /\ exists e, console s' = console s ++ [e])).
Proof.
  intros endpoint fuel base64Data mimeType s Hfuel.
  rewrite <- generateAltText_js_string.
  destruct (generateAltText_js_outcome endpoint fuel (JStr base64Data) mimeType s Hfuel)
    as (s' & Hrun & Hload & Hout & _).
  exists s'. split; [exact Hrun |]. split; [exact Hload | exact Hout].
Qed.

Lemma call_ends_in_one_of_three_witness :
  exists s',
    generateAltText failing_endpoint 5 "aGk=" "image/png" used_page = (Normal tt, s') /\
    isLoading s' = false /\
    ((message s' = "Alt text generated successfully!"%string /\
      truthy (altText s') = true /\ console s' = console used_page)
     \/
     (message s' = "Could not generate alt text. Please try a different image."%string /\
      altText s' = altText used_page /\ console s' = console used_page)
     \/
     (message s' = "An error occurred. Please check the console for details."%string /\
      altText s' = altText used_page /\ exists e, console s' = console used_page ++ [e])).
Proof.
  apply (call_ends_in_one_of_three failing_endpoint 5 "aGk=" "image/png" used_page).
  lia.
Defined.



(** X4: a first response with a success status whose body is not JSON is not
    retried: after that one call, the SyntaxError of [response.json()] is
    logged and the error message shown; the alt text is left as it was. *)
Theorem malformed_body_not_retried :
  forall endpoint fuel base64Data mimeType s r why,
    (5 <= fuel)%nat ->
    endpoint (calls s) apiUrl (request base64Data mimeType) = Resolves r ->
    ok r = true ->
    json r = Malformed why ->
    exists s',
      generateAltText endpoint fuel base64Data mimeType s = (Normal tt, s') /\
      message s' = "An error occurred. Please check the console for details."%string /\
      console s' = console s ++ [SyntaxError why] /\
      altText s' = altText s /\
      isLoading s' = false /\
      calls s' = S (calls s) /\
      log s' = log s ++ [EvFetch apiUrl (request base64Data mimeType)].
Proof.
  intros endpoint fuel base64Data mimeType s r why Hfuel Hresp Hok Hjson.
  destruct (retried_then_response endpoint (request base64Data mimeType)
              fuel base64Data mimeType s 0 r)
    as (s1 & Hrun & Hr1 & Hc1 & Hl1 & Hcon1 & Halt1); auto; try lia.
  { now rewrite Nat.add_0_r. }
  rewrite Hrun, after_loop_eq, Hr1, Hjson.
  eexists. split; [reflexivity |].
  js_simpl. rewrite Hcon1. repeat split; try assumption. lia.
Qed.

Lemma malformed_body_not_retried_witness :
  exists s',
    generateAltText (fun _ _ _ => Resolves html_response) 5 "aGk=" "image/png"
                    fresh_page = (Normal tt, s') /\
    message s' = "An error occurred. Please check the console for details."%string /\
    console s' = console fresh_page ++ [SyntaxError "Unexpected token '<'"] /\
    altText s' = altText fresh_page /\
    isLoading s' = false /\
    calls s' = S (calls fresh_page) /\
    log s' = log fresh_page ++ [EvFetch apiUrl (request "aGk=" "image/png")].
Proof.
  apply (malformed_body_not_retried (fun _ _ _ => Resolves html_response) 5
           "aGk=" "image/png" fresh_page html_response "Unexpected token '<'").
  - lia.
  - reflexivity.
  - reflexivity.
  - reflexivity.
Defined.

(** X5: for a first response with a success status and a JSON body, the
    value at candidates[0].content.parts[0].text decides by its truthiness
    alone: a truthy value, string or not, becomes the alt text as it is; a
    falsy one (undefined, null, false, 0, NaN, "") leaves the alt text alone
    and gives the "could not generate" message.  Either way there is one
    call and nothing is logged. *)
Theorem truthiness_decides :
  forall endpoint fuel base64Data mimeType s r result,
    (5 <= fuel)%nat ->
    endpoint (calls s) apiUrl (request base64Data mimeType) = Resolves r ->
    ok r = true ->
    json r = Parsed result ->
    exists s',
      generateAltText endpoint fuel base64Data mimeType s = (Normal tt, s') /\
      calls s' = S (calls s) /\
      log s' = log s ++ [EvFetch apiUrl (request base64Data mimeType)] /\
      console s' = console s /\
      (truthy (generatedText_of result) = true ->
       altText s' = generatedText_of result /\
       message s' = "Alt text generated successfully!"%string) /\
      (truthy (generatedText_of result) = false ->
       altText s' = altText s /\
       message s' = "Could not generate alt text. Please try a different image."%string).
Proof.
  intros endpoint fuel base64Data mimeType s r result Hfuel Hresp Hok Hjson.
  destruct (retried_then_response endpoint (request base64Data mimeType)
              fuel base64Data mimeType s 0 r)
    as (s1 & Hrun & Hr1 & Hc1 & Hl1 & Hcon1 & Halt1); auto; try lia.
  { now rewrite Nat.add_0_r. }
  rewrite Hrun, after_loop_eq, Hr1, Hjson.
  destruct (truthy (generatedText_of result));
    (eexists; split; [reflexivity |]); js_simpl;
    (split; [lia |]); (split; [exact Hl1 |]); (split; [exact Hcon1 |]);
    split; intros H; try discriminate; split; auto.
Qed.

Lemma truthiness_decides_witness :
  exists s',
    generateAltText (fun _ _ _ => Resolves (ok_response (JNum (S754_finite false 42 0))))
                    5 "aGk=" "image/png" fresh_page = (Normal tt, s') /\
    calls s' = S (calls fresh_page) /\
    log s' = log fresh_page ++ [EvFetch apiUrl (request "aGk=" "image/png")] /\
    console s' = console fresh_page /\
    (truthy (JNum (S754_finite false 42 0)) = true ->
     altText s' = JNum (S754_finite false 42 0) /\
     message s' = "Alt text generated successfully!"%string) /\
    (truthy (JNum (S754_finite false 42 0)) = false ->
     altText s' = altText fresh_page /\
     message s' = "Could not generate alt text. Please try a different image."%string).
Proof.
  apply (truthiness_decides
           (fun _ _ _ => Resolves (ok_response (JNum (S754_finite false 42 0)))) 5
           "aGk=" "image/png" fresh_page (ok_response (JNum (S754_finite false 42 0)))
           (JObj [("candidates"%string,
                   JArr [JObj [("content"%string,
                               JObj [("parts"%string,
                                      JArr [JObj [("text"%string,
                                                   JNum (S754_finite false 42 0))]])])]])])).
  - lia.
  - reflexivity.
  - reflexivity.
  - reflexivity.
Defined.

(** X6: when four failed calls of any kinds are followed by a fifth response
    with status 429, the call waits 16000 ms more, makes no sixth call, and
    then treats that 429 response as the answer: its body is parsed, and a
    truthy text in it is shown as the alt text, a falsy one gives the "could
    not generate" message, a body that is not JSON the error message. *)
Theorem fifth_429_is_parsed :
  forall endpoint fuel base64Data mimeType s r5,
    (5 <= fuel)%nat ->
    (forall i, (i < 4)%nat ->
       failure (endpoint (calls s + i)%nat apiUrl (request base64Data mimeType))) ->
    endpoint (calls s + 4)%nat apiUrl (request base64Data mimeType) = Resolves r5 ->
    status r5 = 429 ->
    exists s',
      generateAltText endpoint fuel base64Data mimeType s = (Normal tt, s') /\
      calls s' = (calls s + 5)%nat /\
      log s' = log s ++ attempts_log (request base64Data mimeType) 1000 5 /\
      match json r5 with
      | Parsed result =>
          console s' = console s /\
          if truthy (generatedText_of result) then
            altText s' = generatedText_of result /\
            message s' = "Alt text generated successfully!"%string
          else
            altText s' = altText s /\
            message s' =
              "Could not generate alt text. Please try a different image."%string
      | Malformed why =>
          console s' = console s ++ [SyntaxError why] /\
          altText s' = altText s /\
          message s' = "An error occurred. Please check the console for details."%string
      end.
Proof.
  intros endpoint fuel base64Data mimeType s r5 Hfuel Hfail Hlast H429.
  set (init := request base64Data mimeType) in *.
  destruct (while_retried_prefix endpoint init 5 fuel (loop_entry s))
    as (s5 & Hrun & Hr & _ & Hc & Hl & Hresp & Hpage);
    [lia | cbn; unfold maxRetries; lia | |].
  { intros i Hi. destruct (Nat.eq_dec i 4) as [-> | Hne].
    - unfold retried. change (calls (loop_entry s)) with (calls s).
      rewrite Hlast. now left.
    - apply failure_retried.
      + change (calls (loop_entry s)) with (calls s). apply Hfail. lia.
      + change (retries (loop_entry s)) with 0. unfold maxRetries. lia. }
  change (retries (loop_entry s)) with 0 in Hr.
  change (calls (loop_entry s)) with (calls s) in Hc.
  change (log (loop_entry s)) with (log s) in Hl.
  change (delay (loop_entry s)) with 1000 in Hl.
  destruct Hpage as (Hcon & _ & _ & Halt).
  change (console (loop_entry s)) with (console s) in Hcon.
  change (altText (loop_entry s)) with (altText s) in Halt.
  assert (Hr5 : response s5 = Some r5).
  { rewrite Hresp. cbn [response_at]. change (calls (loop_entry s)) with (calls s).
    fold init. now rewrite Hlast. }
  rewrite generateAltText_eq. fold init. rewrite Hrun, while_done
    by (unfold loop_cond; rewrite Hr; reflexivity).
  rewrite after_loop_eq, Hr5.
  destruct (json r5) as [result | why].
  - destruct (truthy (generatedText_of result));
      (eexists; split; [reflexivity |]); js_simpl; repeat split; assumption.
  - eexists. split; [reflexivity |]. js_simpl. rewrite Hcon. repeat split; assumption.
Qed.

Lemma fifth_429_is_parsed_witness :
  exists s',
    generateAltText (mixed_then (Resolves rate_limited_response)) 5 "aGk=" "image/png"
                    fresh_page = (Normal tt, s') /\
    calls s' = (calls fresh_page + 5)%nat /\
    log s' = log fresh_page ++ attempts_log (request "aGk=" "image/png") 1000 5 /\
    match json rate_limited_response with
    | Parsed result =>
        console s' = console fresh_page /\
        if truthy (generatedText_of result) then
          altText s' = generatedText_of result /\
          message s' = "Alt text generated successfully!"%string
        else
          altText s' = altText fresh_page /\
          message s' =
            "Could not generate alt text. Please try a different image."%string
    | Malformed why =>
        console s' = console fresh_page ++ [SyntaxError why] /\
        altText s' = altText fresh_page /\
        message s' = "An error occurred. Please check the console for details."%string
    end.
Proof.
  apply (fifth_429_is_parsed (mixed_then (Resolves rate_limited_response)) 5
           "aGk=" "image/png" fresh_page rate_limited_response).
  - lia.
  - intros i Hi. do 4 (destruct i as [| i]; [simpl; auto |]). lia.
  - reflexivity.
  - reflexivity.
Defined.

(** X7: when four failed calls of any kinds are followed by a fifth call
    that fails other than with a 429, the call stops there: five calls,
    waits of 1000, 2000, 4000 and 8000 ms between them and none after the
    last, the error of the fifth call alone logged, the error message shown
    and the alt text left as it was. *)
Theorem fifth_failure_is_reported :
  forall endpoint fuel base64Data mimeType s,
    (5 <= fuel)%nat ->
    (forall i, (i < 4)%nat ->
       failure (endpoint (calls s + i)%nat apiUrl (request base64Data mimeType))) ->
    hard_failure (endpoint (calls s + 4)%nat apiUrl (request base64Data mimeType)) ->
    exists s',
      generateAltText endpoint fuel base64Data mimeType s = (Normal tt, s') /\
      calls s' = (calls s + 5)%nat /\
      log s' = log s ++ attempts_log (request base64Data mimeType) 1000 4
                     ++ [EvFetch apiUrl (request base64Data mimeType)] /\
      console s' =
        console s ++
        [error_of (endpoint (calls s + 4)%nat apiUrl (request base64Data mimeType))] /\
      message s' = "An error occurred. Please check the console for details."%string /\
      altText s' = altText s /\
      isLoading s' = false.
Proof.
  intros endpoint fuel base64Data mimeType s Hfuel Hfail Hlast.
  set (init := request base64Data mimeType) in *.
  destruct (while_retried_prefix endpoint init 4 fuel (loop_entry s))
    as (s4 & Hrun & Hr & _ & Hc & Hl & _ & Hpage);
    [lia | cbn; unfold maxRetries; lia | |].
  { intros i Hi. apply failure_retried.
    - change (calls (loop_entry s)) with (calls s). now apply Hfail.
    - change (retries (loop_entry s)) with 0. unfold maxRetries. lia. }
  change (retries (loop_entry s)) with 0 in Hr.
  change (calls (loop_entry s)) with (calls s) in Hc.
  change (log (loop_entry s)) with (log s) in Hl.
  change (delay (loop_entry s)) with 1000 in Hl.
  destruct (loop_body_last_failure endpoint init s4)
    as (s5 & Hbody & _ & _ & Hc5 & Hl5 & Hpage5).
  { now rewrite Hc. }
  { rewrite Hr. unfold maxRetries. lia. }
  rewrite Hc in Hbody.
  destruct (same_page_trans _ _ _ Hpage Hpage5) as (Hcon & _ & _ & Halt).
  change (console (loop_entry s)) with (console s) in Hcon.
  change (altText (loop_entry s)) with (altText s) in Halt.
  eexists. split.
  - rewrite generateAltText_eq. fold init. rewrite Hrun.
    replace (fuel - 4)%nat with (S (fuel - 5)) by lia.
    rewrite while_S. unfold loop_cond at 1. rewrite Hr.
    change (4 <? maxRetries) with true. cbv iota.
    rewrite Hbody. reflexivity.
  - js_simpl. repeat split.
    + lia.
    + now rewrite Hl5, Hl, <- app_assoc.
    + now rewrite Hcon.
    + exact Halt.
Qed.

Lemma fifth_failure_is_reported_witness :
  exists s',
    generateAltText (mixed_then (Rejects "Connection reset")) 5 "aGk=" "image/png"
                    fresh_page = (Normal tt, s') /\
    calls s' = (calls fresh_page + 5)%nat /\
    log s' = log fresh_page ++ attempts_log (request "aGk=" "image/png") 1000 4
                   ++ [EvFetch apiUrl (request "aGk=" "image/png")] /\
    console s' =
      console fresh_page ++
      [error_of (mixed_then (Rejects "Connection reset") (calls fresh_page + 4)%nat
                            apiUrl (request "aGk=" "image/png"))] /\
    message s' = "An error occurred. Please check the console for details."%string /\
    altText s' = altText fresh_page /\
    isLoading s' = false.
Proof.
  apply (fifth_failure_is_reported (mixed_then (Rejects "Connection reset")) 5
           "aGk=" "image/png" fresh_page).
  - lia.
  - intros i Hi. do 4 (destruct i as [| i]; [simpl; auto |]). lia.
  - exact I.
Defined.

(** ** Beyond the claims: the page *)

Lemma str_split_lacks c s : lacks c s = true -> str_split c s = [s].
Proof.
  induction s as [| c' s IH]; simpl; [reflexivity |].
  intros H. apply andb_prop in H as [Hc Hs].
  apply negb_true_iff in Hc. rewrite Hc, (IH Hs). reflexivity.
Qed.

Lemma str_split_at c pre rest :
  lacks c pre = true ->
  str_split c (pre ++ String c rest) = pre :: str_split c rest.
Proof.
  induction pre as [| c' pre IH]; simpl.
  - intros _. now rewrite Ascii.eqb_refl.
  - intros H. apply andb_prop in H as [Hc Hs].
    apply negb_true_iff in Hc. rewrite Hc, (IH Hs). reflexivity.
Qed.

(** The part of a data URL after its only comma is what [split(',')[1]]
    yields. *)
Lemma data_part pre data :
  lacks "," pre = true -> lacks "," data = true ->
  nth_error (str_split "," (pre ++ String "," data)) 1 = Some data.
Proof.
  intros Hpre Hdata. now rewrite (str_split_at _ _ _ Hpre), (str_split_lacks _ _ Hdata).
Qed.

(** The first thing any call does to the log is the network call. *)
Lemma generateAltText_js_first_event endpoint fuel base64Data mimeType s :
  (5 <= fuel)%nat ->
  exists rest,
    log (snd (generateAltText_js endpoint fuel base64Data mimeType s)) =
    log s ++ EvFetch apiUrl (request_js base64Data mimeType) :: rest.
Proof.
  intros Hfuel.
  destruct (generateAltText_js_outcome endpoint fuel base64Data mimeType s Hfuel)
    as (s' & Hrun & _ & _ & Hshape).
  rewrite Hrun. cbn [snd].
  destruct Hshape as [(n & _ & Hl & _) | (Hl & _)]; rewrite Hl.
  - destruct n as [| n]; [now exists [] |].
    unfold attempts_log. simpl. eexists. reflexivity.
  - unfold attempts_log. simpl. eexists. reflexivity.
Qed.

(** The page on which [handleFile] leaves the reader to its work. *)
Lemma handleFile_read endpoint fuel file p url :
  dataURL file = Some url ->
  handleFile endpoint fuel file p =
  on_store
    (generateAltText_js endpoint fuel
       match nth_error (str_split "," url) 1 with
       | Some part => JStr part
       | None => JUndefined
       end
       (type file))
    (with_image (Some url)
       (set_store (with_message "") (set_store (with_altText (JStr "")) p))).
Proof. intros H. unfold handleFile. now rewrite H. Qed.

(** X8: a drop that brings no file, or a first file whose type does not
    start with "image/", stays local: the browser's default is prevented
    and the drag highlight removed, but nothing is read or sent, and the
    preview and the alt text stay as they were; the message changes, to
    "Please drop a valid image file.", only when there was a file. *)
Theorem drop_without_image_is_local :
  forall endpoint fuel files p,
    match files with
    | [] => True
    | file :: _ => prefix "image/" (type file) = false
    end ->
    exists p',
      handleDrop endpoint fuel files p = (Normal tt, p') /\
      effects p' = effects p ++ [PreventDefault] /\
      isDragging p' = false /\
      image p' = image p /\
      uncaught p' = uncaught p /\
      log (store p') = log (store p) /\
      calls (store p') = calls (store p) /\
      altText (store p') = altText (store p) /\
      isLoading (store p') = isLoading (store p) /\
      message (store p') =
        match files with
        | [] => message (store p)
        | _ :: _ => "Please drop a valid image file."%string
        end.
Proof.
  intros endpoint fuel files p Hfiles. unfold handleDrop.
  destruct files as [| file rest].
  - eexists. split; [reflexivity |]. repeat split.
  - rewrite Hfiles. eexists. split; [reflexivity |]. repeat split.
Qed.

Lemma drop_without_image_is_local_witness :
  exists p',
    handleDrop always_rate_limited 5 [text_file; png_file] new_page = (Normal tt, p') /\
    effects p' = effects new_page ++ [PreventDefault] /\
    isDragging p' = false /\
    image p' = image new_page /\
    uncaught p' = uncaught new_page /\
    log (store p') = log (store new_page) /\
    calls (store p') = calls (store new_page) /\
    altText (store p') = altText (store new_page) /\
    isLoading (store p') = isLoading (store new_page) /\
    message (store p') = "Please drop a valid image file."%string.
Proof.
  apply (drop_without_image_is_local always_rate_limited 5 [text_file; png_file]
                                     new_page).
  reflexivity.
Defined.

(** X9: a file chosen through the file input is read and sent whatever its
    type: when the reader yields a data URL with one comma, the preview is
    set to that URL and the first thing done is the network call, whose
    request carries the part after the comma as the data and the file's own
    type as the MIME type. *)
Theorem picker_sends_any_type :
  forall endpoint fuel file rest p pre data,
    (5 <= fuel)%nat ->
    dataURL file = Some (pre ++ String "," data)%string ->
    lacks "," pre = true ->
    lacks "," data = true ->
    exists p' more,
      handleFileChange endpoint fuel (file :: rest) p = (Normal tt, p') /\
      image p' = Some (pre ++ String "," data)%string /\
      log (store p') =
        log (store p) ++ EvFetch apiUrl (request data (type file)) :: more.
Proof.
  intros endpoint fuel file rest p pre data Hfuel Hurl Hpre Hdata.
  unfold handleFileChange.
  rewrite (handleFile_read endpoint fuel file p _ Hurl), (data_part pre data Hpre Hdata).
  unfold on_store. set (p1 := with_image _ _).
  assert (Hret := generateAltText_returns endpoint fuel data (type file) (store p1) Hfuel).
  destruct (generateAltText_js_first_event endpoint fuel (JStr data) (type file)
              (store p1) Hfuel) as [more Hlog].
  rewrite generateAltText_js_string in *.
  destruct (generateAltText endpoint fuel data (type file) (store p1)) as [c s'].
  simpl in Hret, Hlog. subst c.
  exists (with_store s' p1), more. repeat split. exact Hlog.
Qed.

Lemma picker_sends_any_type_witness :
  exists p' more,
    handleFileChange always_rate_limited 5 [text_file] new_page = (Normal tt, p') /\
    image p' = Some ("data:text/plain;base64" ++ String "," "aGk=")%string /\
    log (store p') =
      log (store new_page) ++ EvFetch apiUrl (request "aGk=" (type text_file)) :: more.
Proof.
  apply (picker_sends_any_type always_rate_limited 5 text_file [] new_page
           "data:text/plain;base64" "aGk=").
  - lia.
  - reflexivity.
  - reflexivity.
  - reflexivity.
Defined.

(** X10: a file the reader cannot read never reaches the network: the alt
    text is cleared, the read-error message is shown, the preview and the
    loading flag stay as they were, and the [loadend] handler fails on the
    null result, uncaught, before it calls [generateAltText]. *)
Theorem unreadable_file_never_sent :
  forall endpoint fuel file p,
    dataURL file = None ->
    exists p',
      handleFile endpoint fuel file p = (Normal tt, p') /\
      log (store p') = log (store p) /\
      calls (store p') = calls (store p) /\
      console (store p') = console (store p) /\
      message (store p') = "Error reading file. Please try again."%string /\
      altText (store p') = JStr "" /\
      isLoading (store p') = isLoading (store p) /\
      image p' = image p /\
      uncaught p' = uncaught p ++ [null_result_error].
Proof.
  intros endpoint fuel file p Hnone. unfold handleFile. rewrite Hnone.
  eexists. split; [reflexivity |]. repeat split.
Qed.

Lemma unreadable_file_never_sent_witness :
  exists p',
    handleFile always_rate_limited 5 unreadable_file new_page = (Normal tt, p') /\
    log (store p') = log (store new_page) /\
    calls (store p') = calls (store new_page) /\
    console (store p') = console (store new_page) /\
    message (store p') = "Error reading file. Please try again."%string /\
    altText (store p') = JStr "" /\
    isLoading (store p') = isLoading (store new_page) /\
    image p' = image new_page /\
    uncaught p' = uncaught new_page ++ [null_result_error].
Proof.
  apply (unreadable_file_never_sent always_rate_limited 5 unreadable_file new_page).
  reflexivity.
Defined.




(** X12: after [handleReset] the tree is built and shows nothing but the
    drop area: no preview, no spinner, no message, no alt text and no reset
    button, whatever the page held before; the log of network calls, the console and the
    document are not touched. *)
Theorem reset_hides_everything :
  forall p,
    render (handleReset p) = Some (mkView None false None None false) /\
    log (store (handleReset p)) = log (store p) /\
    calls (store (handleReset p)) = calls (store p) /\
    console (store (handleReset p)) = console (store p) /\
    effects (handleReset p) = effects p.
Proof. intros p. repeat split. Qed.


